(** * PowerPointLocalDataSet: a shallow embedding of
      [kedro_tutorial/io/powerpoint/powerpoint_local.py]

    The adapter loads a table that lives on a slide of a presentation into a
    data frame and saves a data frame into the table of a bundled template.

    - The python-pptx object model is represented by records (cells, rows,
      tables, shapes, slides, presentations).  A presentation is its list of
      slide ids and the relationships leading from an [rId] to a slide.  A
      font size is the [sz] attribute, in hundredths of a point; a length
      read in points is a Python [float], an IEEE 754 binary64 number.
    - Python exceptions are values of [Exception], and a computation that may
      raise returns a [Result].  Indexing a sequence out of range raises
      [IndexError], unpacking too short a sequence [ValueError], reading an
      attribute of [None] [AttributeError].
    - The files on disk and the order in which documents are opened and
      saved are an explicit [World], threaded through [_load] and [_save].
    - pandas is the interface [Pandas] the adapter is parametrised by; the
      path of the bundled template is a parameter as well.
    - A [string] is a sequence of characters with code points below 256. *)

From Stdlib Require Import ZArith Ascii String Lia.
From Stdlib Require Import Floats.SpecFloat.
From stdpp Require Import gmap strings list fin_maps pretty.

Open Scope string_scope.
Open Scope list_scope.
Open Scope Z_scope.

(** ** Python values and exceptions *)

Inductive PyVal :=
| PyNone
| PyBool (b : bool)
| PyInt (z : Z)
| PyStr (s : string).

#[global] Instance PyVal_eq_dec : EqDecision PyVal.
Proof. solve_decision. Defined.

(** Truth value testing, as [assert] and [if] apply it. *)
Definition truthy (v : PyVal) : bool :=
  match v with
  | PyNone => false
  | PyBool b => b
  | PyInt z => negb (z =? 0)
  | PyStr s => negb (String.eqb s "")
  end.

Inductive Exception :=
| AssertionError
| DataSetError (msg : string)
| IndexError
| KeyError (key : string)
| ValueError
| StopIteration
| AttributeError
| TypeError
| OverflowError
| PackageNotFoundError (path : string)
| PandasError (msg : string).

#[global] Instance Exception_eq_dec : EqDecision Exception.
Proof. solve_decision. Defined.

Inductive Result (A : Type) :=
| Ok (a : A)
| Raise (e : Exception).
Arguments Ok {A} a.
Arguments Raise {A} e.

#[global] Instance Result_ret : MRet Result := @Ok.
#[global] Instance Result_bind : MBind Result :=
  λ A B f m, match m with Ok a => f a | Raise e => Raise e end.
#[global] Instance Result_fmap : FMap Result :=
  λ A B f m, match m with Ok a => Ok (f a) | Raise e => Raise e end.

(** [seq[i]] for a non-negative position. *)
Definition getitem {A} (l : list A) (i : nat) : Result A :=
  match l !! i with
  | Some x => Ok x
  | None => Raise IndexError
  end.

(** [seq[i]] for a Python integer, negative positions counting from the end. *)
Definition getitem_int {A} (l : list A) (z : Z) : Result A :=
  if 0 <=? z then getitem l (Z.to_nat z)
  else if 0 <=? Z.of_nat (length l) + z
       then getitem l (Z.to_nat (Z.of_nat (length l) + z))
       else Raise IndexError.

(** [del seq[i]]. *)
Definition delitem {A} (l : list A) (i : nat) : Result (list A) :=
  if decide (i < length l)%nat then Ok (delete i l) else Raise IndexError.

(** ** Strings: [str.split(",")], [str.join], [str.splitlines] *)

Definition comma : ascii := ","%char.
Definition LF : ascii := ascii_of_nat 10.
Definition CR : ascii := ascii_of_nat 13.

Fixpoint split (sep : ascii) (s : string) : list string :=
  match s with
  | EmptyString => [EmptyString]
  | String c s' =>
      if Ascii.eqb c sep then EmptyString :: split sep s'
      else match split sep s' with
           | [] => [String c EmptyString]
           | field :: fields => String c field :: fields
           end
  end.

Fixpoint join (sep : string) (l : list string) : string :=
  match l with
  | [] => EmptyString
  | [x] => x
  | x :: rest => x +:+ sep +:+ join sep rest
  end.

(** The line boundaries of [str.splitlines] among the characters below 256:
    LF, VT, FF, CR, FS, GS, RS and NEL. *)
Definition is_linebreak (c : ascii) : bool :=
  let n := nat_of_ascii c in
  (Nat.eqb n 10 || Nat.eqb n 11 || Nat.eqb n 12 || Nat.eqb n 13
   || Nat.eqb n 28 || Nat.eqb n 29 || Nat.eqb n 30 || Nat.eqb n 133)%bool.

Fixpoint splitlines (s : string) : list string :=
  match s with
  | EmptyString => []
  | String c s' =>
      if Ascii.eqb c CR then
        match s' with
        | String c' s'' =>
            if Ascii.eqb c' LF then EmptyString :: splitlines s''
            else EmptyString :: splitlines s'
        | EmptyString => [EmptyString]
        end
      else if is_linebreak c then EmptyString :: splitlines s'
      else match splitlines s' with
           | [] => [String c EmptyString]
           | line :: lines => String c line :: lines
           end
  end.

Fixpoint contains (c : ascii) (s : string) : bool :=
  match s with
  | EmptyString => false
  | String c' s' => (Ascii.eqb c' c || contains c s')%bool
  end.

Fixpoint has_linebreak (s : string) : bool :=
  match s with
  | EmptyString => false
  | String c s' => (is_linebreak c || has_linebreak s')%bool
  end.

(** What [buffer.write(line); buffer.write("\n")] accumulates over lines. *)
Fixpoint unlines (lines : list string) : string :=
  match lines with
  | [] => EmptyString
  | line :: rest => line +:+ String LF (unlines rest)
  end.

(** ** Lengths *)

(** [float(n)]: the binary64 number nearest to [n]. *)
Definition float_of_int (n : Z) : Result spec_float :=
  match binary_normalize 53 1024 n 0 false with
  | S754_infinity _ => Raise OverflowError
  | x => Ok x
  end.

(** [int(x)]: [x] without its fractional part. *)
Definition int_of_float (x : spec_float) : Result Z :=
  match x with
  | S754_zero _ => Ok 0
  | S754_finite s m e =>
      let a := match e with
               | Z0 => Zpos m
               | Zpos p => Zpos m * 2 ^ Zpos p
               | Zneg p => Zpos m / 2 ^ Zpos p
               end in
      Ok (if s then - a else a)
  | S754_infinity _ => Raise OverflowError
  | S754_nan => Raise ValueError
  end.

(** A [Length] is a number of English Metric Units: 12700 to the point, 127
    to the hundredth of a point. *)
Definition Centipoints (centipoints : Z) : Z := centipoints * 127.

(** [Length.pt]: [self / float(12700)]. *)
Definition Length_pt (emu : Z) : Result spec_float :=
  x ← float_of_int emu;
  y ← float_of_int 12700;
  Ok (SFdiv 53 1024 x y).

(** [Pt(points)]: [int(points * 12700)]. *)
Definition Pt (points : spec_float) : Result Z :=
  y ← float_of_int 12700;
  int_of_float (SFmul 53 1024 points y).

(** [Length.centipoints]: [self // 127]. *)
Definition Length_centipoints (emu : Z) : Z := emu / 127.

(** ** The python-pptx object model *)

(** A colour: none chosen, an RGB colour, a theme colour with its
    [MSO_THEME_COLOR] index, or a colour of another kind (HSL, preset,
    system).  Reading [.rgb] raises [AttributeError] unless the colour is an
    RGB colour; reading [.theme_color] raises [AttributeError] where no
    colour is chosen and gives [NOT_THEME_COLOR] for a colour that is not a
    theme colour. *)
Inductive Color :=
| NoColor
| RGBColor (rgb : Z)
| ThemeColor (index : nat)
| OtherColor.

#[global] Instance Color_eq_dec : EqDecision Color.
Proof. solve_decision. Defined.

(** [font.name], [font.size] (the [sz] attribute, in hundredths of a point),
    [font.bold], [font.italic] and [font.color]; [None] where the attribute
    is inherited. *)
Record Font := {
  font_name : option string;
  font_size : option Z;
  font_bold : option bool;
  font_italic : option bool;
  font_color : Color }.

Record Run := { run_text : string; run_font : Font }.

Record Paragraph := { runs : list Run }.

(** [fill.type]: no fill element, [MSO_FILL.BACKGROUND], [MSO_FILL.SOLID]
    with its [fore_color], or one of the other kinds (gradient, pattern,
    picture, group). *)
Inductive Fill :=
| FillNone
| FillBackground
| FillSolid (fore_color : Color)
| FillOther.

Record Cell := {
  fill : Fill;
  margin_bottom : Z;
  margin_left : Z;
  margin_right : Z;
  margin_top : Z;
  paragraphs : list Paragraph }.

Record Row := { cells : list Cell; height : Z }.

Record Table := { rows : list Row }.

(** A graphic frame and the table it holds, if it holds one. *)
Record GraphicFrame := {
  left : Z;
  top : Z;
  width : Z;
  frame_height : Z;
  table : option Table }.

Inductive Shape :=
| Placeholder (is_title : bool) (text : string)
| Frame (frame : GraphicFrame).

Definition has_table (shape : Shape) : bool :=
  match shape with
  | Frame f => bool_decide (is_Some (table f))
  | Placeholder _ _ => false
  end.

Record Slide := { shapes : list Shape }.

Record CT_SlideId := { id : Z; rId : string }.

(** The presentation part: its slide id list and the relationships that
    lead from an [rId] to a slide part. *)
Record Presentation := {
  _sldIdLst : list CT_SlideId;
  rels : gmap string Slide }.

(** [part.related_slide(rId)]. *)
Definition related_slide (prs : Presentation) (r : string) : Result Slide :=
  match rels prs !! r with
  | Some s => Ok s
  | None => Raise (KeyError r)
  end.

Fixpoint mapM {A B} (f : A → Result B) (l : list A) : Result (list B) :=
  match l with
  | [] => Ok []
  | x :: rest => y ← f x; ys ← mapM f rest; Ok (y :: ys)
  end.

(** [list(prs.slides)]. *)
Definition slides (prs : Presentation) : Result (list Slide) :=
  mapM (λ sldId, related_slide prs (rId sldId)) (_sldIdLst prs).

(** [prs.slides[idx]]. *)
Definition slides_getitem (prs : Presentation) (idx : PyVal) : Result Slide :=
  match idx with
  | PyInt z => sldId ← getitem_int (_sldIdLst prs) z; related_slide prs (rId sldId)
  | PyBool b => sldId ← getitem_int (_sldIdLst prs) (if b then 1 else 0);
                related_slide prs (rId sldId)
  | _ => Raise TypeError
  end.

(** [part.drop_rel(rId)]. *)
Definition drop_rel (prs : Presentation) (r : string) : Presentation :=
  {| _sldIdLst := _sldIdLst prs; rels := delete r (rels prs) |}.

(** [cell.text]: the paragraphs' texts joined by line feeds, a paragraph's
    text being the concatenation of its runs. *)
Definition paragraph_text (p : Paragraph) : string :=
  join "" (map run_text (runs p)).

Definition cell_text (c : Cell) : string :=
  join (String LF EmptyString) (map paragraph_text (paragraphs c)).

(** The cell [add_table] creates: no fill, default margins, one empty
    paragraph. *)
Definition new_cell : Cell :=
  {| fill := FillNone;
     margin_bottom := 45720; margin_left := 91440;
     margin_right := 91440; margin_top := 45720;
     paragraphs := [ {| runs := [] |} ] |}.

(** [shapes.add_table(rows, cols, left, top, width, height)]: the frame that
    is appended to the shape tree. *)
Definition add_table (nrows ncols : nat) (l t w h : Z) : GraphicFrame :=
  {| left := l; top := t; width := w; frame_height := h;
     table := Some {| rows := replicate nrows
                        {| cells := replicate ncols new_cell;
                           height := h / Z.of_nat nrows |} |} |}.

(** The text of a run as [run.text = value] stores it: each control
    character other than tab, line feed and carriage return is written
    [_xHHHH_], with its code in four hexadecimal digits. *)
Definition needs_escape (c : ascii) : bool :=
  let n := nat_of_ascii c in
  ((n <=? 8) || (n =? 11) || (n =? 12) || ((14 <=? n) && (n <=? 31)))%nat.

Definition hex_digit (n : nat) : ascii :=
  match get n "0123456789ABCDEF" with
  | Some c => c
  | None => "0"%char
  end.

Definition escape_char (c : ascii) : string :=
  let n := nat_of_ascii c in
  "_x00" +:+ String (hex_digit (n / 16)) (String (hex_digit (n mod 16)) "_").

Fixpoint escape (text : string) : string :=
  match text with
  | EmptyString => EmptyString
  | String c rest =>
      if needs_escape c then escape_char c +:+ escape rest
      else String c (escape rest)
  end.

(** Whether [escape] rewrites some character of the text. *)
Fixpoint has_escaped (text : string) : bool :=
  match text with
  | EmptyString => false
  | String c rest => needs_escape c || has_escaped rest
  end.

(** [cell.fill] after lines 48 to 52: the kind of fill of [like], with its
    RGB colour where the fill is solid. *)
Definition copy_fill (like cell : Cell) : Result Fill :=
  match fill like with
  | FillBackground => Ok FillBackground
  | FillSolid (RGBColor rgb) => Ok (FillSolid (RGBColor rgb))
  | FillSolid _ => Raise AttributeError
  | _ => Ok (fill cell)
  end.

(** [run.font.color.theme_color = font.color.theme_color]: the index that
    ends up on the new run.  [NOT_THEME_COLOR], which a colour that is no
    theme colour reads as, has no XML value, and assigning it raises: a
    [ValueError] here, a [KeyError] in earlier releases of python-pptx.  No
    statement below depends on which of the two it is. *)
Definition copy_theme_color (color : Color) : Result nat :=
  match color with
  | NoColor => Raise AttributeError
  | ThemeColor index => Ok index
  | _ => Raise ValueError
  end.

(** [font.size.pt]. *)
Definition size_pt (font : Font) : Result spec_float :=
  match font_size font with
  | None => Raise AttributeError
  | Some sz => Length_pt (Centipoints sz)
  end.

(** [font.size = Pt(size)]: the [sz] attribute written, which has to lie
    between 100 and 400000. *)
Definition set_size (size : spec_float) : Result Z :=
  emu ← Pt size;
  let sz := Length_centipoints emu in
  if (100 <=? sz) && (sz <=? 400000) then Ok sz else Raise ValueError.

(** [set_rPr_font] on every run of the paragraphs. *)
Definition set_rPr_font (name : option string) (sz : Z) (bold italic : option bool)
    (ps : list Paragraph) : list Paragraph :=
  map (λ p, {| runs := map (λ r,
        {| run_text := run_text r;
           run_font := {| font_name := name; font_size := Some sz;
                          font_bold := bold; font_italic := italic;
                          font_color := font_color (run_font r) |} |}) (runs p) |}) ps.

(** [text_frame._set_font(name, size, bold, italic)]: every run of the cell,
    and the end of every paragraph. *)
Definition _set_font (name : option string) (size : spec_float)
    (bold italic : option bool) (ps : list Paragraph) : Result (list Paragraph) :=
  match ps with
  | [] => Ok []
  | _ :: _ =>
      sz ← set_size size;
      Ok (set_rPr_font name sz bold italic ps)
  end.

(** ** [_format_cells] *)

(** The body of the loop of [_format_cells], for one [(cell, value)] pair. *)
Definition format_cell (like : Cell) (cell : Cell) (value : string) : Result Cell :=
  fill' ← copy_fill like cell;
  match paragraphs cell with
  | [] => Raise IndexError
  | p0 :: ps =>
      like_p0 ← getitem (paragraphs like) 0;
      like_run ← getitem (runs like_p0) 0;
      let font := run_font like_run in
      index ← copy_theme_color (font_color font);
      let run := {| run_text := escape value;
                    run_font := {| font_name := None; font_size := None;
                                   font_bold := None; font_italic := None;
                                   font_color := ThemeColor index |} |} in
      size ← size_pt font;
      paragraphs' ← _set_font (font_name font) size (font_bold font)
                      (font_italic font) ({| runs := runs p0 ++ [run] |} :: ps);
      Ok {| fill := fill';
            margin_bottom := margin_bottom like;
            margin_left := margin_left like;
            margin_right := margin_right like;
            margin_top := margin_top like;
            paragraphs := paragraphs' |}
  end.

(** [for cell, value in zip(row.cells, line.split(","))]: the cells after
    the loop, the ones [zip] never reaches being left as they were. *)
Fixpoint format_zip (like : Cell) (cs : list Cell) (values : list string)
    : Result (list Cell) :=
  match cs, values with
  | cell :: cs', value :: values' =>
      cell' ← format_cell like cell value;
      rest ← format_zip like cs' values';
      Ok (cell' :: rest)
  | _, _ => Ok cs
  end.

Definition _format_cells (row : Row) (line : string) (like : Cell) : Result Row :=
  cells' ← format_zip like (cells row) (split comma line);
  Ok {| cells := cells'; height := height row |}.

(** ** pandas, as the adapter uses it *)

(** [data.shape], [data.to_csv] and [pd.read_csv], both called with the
    keyword arguments of the adapter; either of them may raise. *)
Class Pandas := {
  DataFrame : Type;
  shape : DataFrame → nat * nat;
  to_csv : DataFrame → gmap string PyVal → Result string;
  read_csv : string → gmap string PyVal → Result DataFrame }.

(** ** The world: files on disk and the log of document accesses *)

Inductive Event :=
| Opened (path : string)
| Saved (path : string).

Record World := {
  files : gmap string Presentation;
  events : list Event }.

Definition M (A : Type) : Type := World → Result A * World.

#[global] Instance M_ret : MRet M := λ A a w, (Ok a, w).
#[global] Instance M_bind : MBind M :=
  λ A B f m w, match m w with
               | (Ok a, w') => f a w'
               | (Raise e, w') => (Raise e, w')
               end.

Definition lift {A} (r : Result A) : M A := λ w, (r, w).
Definition raise {A} (e : Exception) : M A := λ w, (Raise e, w).

(** [Presentation(path)]. *)
Definition Presentation_open (path : string) : M Presentation := λ w,
  let w' := {| files := files w; events := events w ++ [Opened path] |} in
  match files w !! path with
  | Some prs => (Ok prs, w')
  | None => (Raise (PackageNotFoundError path), w')
  end.

(** [prs.save(path)]. *)
Definition Presentation_save (prs : Presentation) (path : string) : M unit := λ w,
  (Ok tt, {| files := <[path := prs]> (files w);
             events := events w ++ [Saved path] |}).

(** ** Small pieces of Python the adapter relies on *)

(** [d.pop(key)]. *)
Definition pop (key : string) (d : gmap string PyVal)
    : Result (PyVal * gmap string PyVal) :=
  match d !! key with
  | Some v => Ok (v, delete key d)
  | None => Raise (KeyError key)
  end.

(** [list(enumerate(seq))]. *)
Definition enumerate {A} (l : list A) : list (nat * A) :=
  zip (seq 0 (length l)) l.

(** [[x] = seq]. *)
Definition unpack1 {A} (l : list A) : Result A :=
  match l with
  | [x] => Ok x
  | _ => Raise ValueError
  end.

(** [a, b, c, *_ = seq]. *)
Definition unpack3 {A} (l : list A) : Result (A * A * A) :=
  match l with
  | a :: b :: c :: _ => Ok (a, b, c)
  | _ => Raise ValueError
  end.

(** [shape.table]. *)
Definition shape_table (shape : Shape) : Result Table :=
  match shape with
  | Frame f => match table f with
               | Some t => Ok t
               | None => Raise ValueError
               end
  | Placeholder _ _ => Raise AttributeError
  end.

(** [shapes.title]: the first title placeholder, with its position. *)
Fixpoint title_index (l : list Shape) : option nat :=
  match l with
  | [] => None
  | Placeholder true _ :: _ => Some 0%nat
  | _ :: rest => S <$> title_index rest
  end.

(** [slide.shapes.title.text = title]. *)
Definition set_title (slide : Slide) (title : PyVal) : Result Slide :=
  match title_index (shapes slide) with
  | None => Raise AttributeError
  | Some i =>
      match title with
      | PyStr s => Ok {| shapes := <[i := Placeholder true s]> (shapes slide) |}
      | _ => Raise TypeError
      end
  end.

(** [list.insert(i, x)] for a position within the list. *)
Definition insert_at {A} (i : nat) (x : A) (l : list A) : list A :=
  take i l ++ x :: drop i l.

(** ** The adapter *)

Record PowerPointLocalDataSet := {
  _filepath : string;
  _load_args : gmap string PyVal;
  _save_args : gmap string PyVal }.

Definition default_load_args : gmap string PyVal :=
  {[ "slide_name" := PyInt 0; "index_col" := PyInt 0 ]}.

Definition default_save_args : gmap string PyVal :=
  {[ "title" := PyNone ]}.

(** [{**default, **args}] keeps the entries of [args] where both have one. *)
Definition __init__ (filepath : string)
    (load_args save_args : option (gmap string PyVal)) : PowerPointLocalDataSet :=
  {| _filepath := filepath;
     _load_args := match load_args with
                   | Some args => args ∪ default_load_args
                   | None => default_load_args
                   end;
     _save_args := match save_args with
                   | Some args => args ∪ default_save_args
                   | None => default_save_args
                   end |}.

Definition _describe (self : PowerPointLocalDataSet)
    : string * gmap string PyVal * gmap string PyVal :=
  (_filepath self, _load_args self, _save_args self).

Definition missing_table : Exception :=
  DataSetError "slide does not contain a table".

Fixpoint get_table_loop (l : list Shape) : Result Table :=
  match l with
  | [] => Raise missing_table
  | shape :: rest =>
      if has_table shape then shape_table shape else get_table_loop rest
  end.

Definition _get_table (slide : Slide) : Result Table :=
  get_table_loop (shapes slide).

(** [_get_table(slide)._graphic_frame]: the frame that owns the table
    [_get_table] returns, together with its position in the shape tree,
    counted from [i]. *)
Fixpoint graphic_frame_loop (l : list Shape) (i : nat)
    : Result (nat * GraphicFrame) :=
  match l with
  | [] => Raise missing_table
  | shape :: rest =>
      if has_table shape then
        match shape with
        | Frame f => Ok (i, f)
        | Placeholder _ _ => Raise AttributeError
        end
      else graphic_frame_loop rest (S i)
  end.

Definition _get_table_graphic_frame (slide : Slide) : Result (nat * GraphicFrame) :=
  graphic_frame_loop (shapes slide) 0.

(** The text [_load] writes into its buffer. *)
Definition table_buffer (t : Table) : string :=
  unlines (map (λ row, join "," (map cell_text (cells row))) (rows t)).

(** The loop of [_get_template] over [reversed(slide_id_list)]. *)
Fixpoint drop_slides (l : list (nat * CT_SlideId)) (prs : Presentation)
    : Result Presentation :=
  match l with
  | [] => Ok prs
  | (i, slide_id) :: rest =>
      let prs1 := drop_rel prs (rId slide_id) in
      lst ← delitem (_sldIdLst prs1) i;
      drop_slides rest {| _sldIdLst := lst; rels := rels prs1 |}
  end.

(** [zip(rows_and_lines, cycle(bands))]: the rows after formatting; [cycle]
    is the rotation of the list of bands. *)
Fixpoint format_bands (rows_and_lines : list (Row * string)) (bands : list Cell)
    : Result (list Row) :=
  match rows_and_lines with
  | [] => Ok []
  | (row, line) :: rest =>
      match bands with
      | [] => Ok (map fst rows_and_lines)
      | band :: bands' =>
          row' ← _format_cells row line band;
          rows' ← format_bands rest (bands' ++ [band]);
          Ok (row' :: rows')
      end
  end.

(** [shapes.add_table(...)] appends the new frame to the shape tree;
    [old_element.addnext(new_element)] moves it right behind the old frame,
    which [old_element.getparent().remove(old_element)] then removes.  [i] is
    the position of the old frame. *)
Definition replace_table (l : list Shape) (i : nat) (new_table : GraphicFrame)
    : list Shape :=
  let appended := l ++ [Frame new_table] in
  let moved := insert_at (S i) (Frame new_table) (delete (length l) appended) in
  delete i moved.

(** The part of [_save] that fills the new table: the rows of the table
    after [_format_cells] went over the pairs of [rows_and_lines]. *)
Definition fill_table (new_rows : list Row) (lines : list string)
    (header_row first_data_row second_data_row : Row) : Result (list Row) :=
  let rows_and_lines := zip new_rows lines in
  match rows_and_lines with
  | [] => Raise StopIteration
  | (row, line) :: rows_and_lines' =>
      like ← getitem (cells header_row) 1;
      row' ← _format_cells row line like;
      band0 ← getitem (cells first_data_row) 0;
      band1 ← getitem (cells second_data_row) 0;
      let bands := [band0; band1] in
      rows' ← format_bands rows_and_lines' bands;
      Ok (row' :: rows' ++ drop (length rows_and_lines) new_rows)
  end.

Section Adapter.

Context `{Pandas}.

(** The value of
    [join(dirname(__file__), "templates", "Digital_Standard_format_Aug 25.pptx")]. *)
Variable template_path : string.

Definition _load (self : PowerPointLocalDataSet) : M DataFrame :=
  prs ← Presentation_open (_filepath self);
  let load_args := _load_args self in
  '(slide_name, load_args) ← lift (pop "slide_name" load_args);
  slide ← lift (slides_getitem prs slide_name);
  table ← lift (_get_table slide);
  let buffer := table_buffer table in
  lift (read_csv buffer load_args).

Definition _get_template : M Presentation :=
  prs ← Presentation_open template_path;
  let slide_id_list := enumerate (_sldIdLst prs) in
  slide_id_list ← lift (delitem slide_id_list 40);
  lift (drop_slides (reverse slide_id_list) prs).

(** Everything [_save] does to the pruned template in memory, up to the
    document that is handed to [prs.save].  The new table is filled in place
    after it has taken the place of the old one on the slide; here the frame
    is put on the slide once its rows are known. *)
Definition build (self : PowerPointLocalDataSet) (data : DataFrame)
    (prs : Presentation) : Result Presentation :=
  slide ← (all ← slides prs; unpack1 all);
  slide_id ← unpack1 (_sldIdLst prs);
  let save_args := _save_args self in
  '(title, save_args) ← pop "title" save_args;
  slide ← match title with
          | PyNone => Ok slide
          | _ => set_title slide title
          end;
  '(i, old_table) ← _get_table_graphic_frame slide;
  old_rows ← rows <$> shape_table (Frame old_table);
  let '(nrows, ncols) := shape data in
  '(header_row, first_data_row, second_data_row) ← unpack3 old_rows;
  let new_table :=
    add_table (nrows + 1) (ncols + 1) (left old_table) (top old_table)
      (width old_table) (Z.of_nat (nrows + 1) * height header_row) in
  new_rows ← rows <$> shape_table (Frame new_table);
  csv ← to_csv data save_args;
  rows' ← fill_table new_rows (splitlines csv)
            header_row first_data_row second_data_row;
  let filled :=
    {| left := left new_table; top := top new_table; width := width new_table;
       frame_height := frame_height new_table;
       table := Some {| rows := rows' |} |} in
  Ok {| _sldIdLst := _sldIdLst prs;
        rels := <[rId slide_id := {| shapes := replace_table (shapes slide) i filled |}]>
                  (rels prs) |}.

Definition _save (self : PowerPointLocalDataSet) (data : DataFrame) : M unit :=
  if negb (truthy (default (PyBool true) (_save_args self !! "index")))
  then raise AssertionError
  else
    prs ← _get_template;
    prs' ← lift (build self data prs);
    Presentation_save prs' (_filepath self).

End Adapter.

(** ** Instances of the pandas interface *)

(** A frame of text cells: the name of the index, the column labels, and one
    index label and one list of values per row. *)
Record TextFrame := {
  index_name : string;
  columns : list string;
  index : list string;
  values : list (list string) }.

Definition text_to_csv (df : TextFrame) (kwargs : gmap string PyVal) : Result string :=
  Ok (unlines (join "," (index_name df :: columns df)
               :: zip_with (λ label vs, join "," (label :: vs)) (index df) (values df))).

Definition text_read_csv (buffer : string) (kwargs : gmap string PyVal)
    : Result TextFrame :=
  match kwargs !! "index_col" with
  | Some (PyInt 0) =>
      match map (split comma) (splitlines buffer) with
      | (name :: labels) :: body =>
          Ok {| index_name := name; columns := labels;
                index := map (λ fields, hd "" fields) body;
                values := map (λ fields, tl fields) body |}
      | _ => Raise (PandasError "No columns to parse from file")
      end
  | _ => Raise (PandasError "index_col")
  end.

(** Modelled from the spec: pandas' CSV codec is no part of the repository;
    this instance is the text intermediate format the spec describes
    (comma-delimited, one row per line, no quoting or escaping), on frames
    whose cells are text. *)
#[local] Instance csv_text : Pandas := {|
  DataFrame := TextFrame;
  shape := λ df, (length (index df), length (columns df));
  to_csv := text_to_csv;
  read_csv := text_read_csv |}.

(** An instance that hands back what [read_csv] was called with. *)
#[local] Instance recorder : Pandas := {|
  DataFrame := string * gmap string PyVal;
  shape := λ _, (0%nat, 0%nat);
  to_csv := λ df _, Ok (fst df);
  read_csv := λ buffer kwargs, Ok (buffer, kwargs) |}.

(** The keywords the [to_csv] of [strict_text] knows. *)
Definition to_csv_keywords : list string :=
  ["sep"; "na_rep"; "columns"; "header"; "index"].

(** Modelled from the spec: pandas' CSV codec is no part of the repository;
    this instance is [csv_text] with a [to_csv] that, as a Python function
    does, raises [TypeError] for a keyword it does not know. *)
#[local] Instance strict_text : Pandas := {|
  DataFrame := TextFrame;
  shape := λ df, (length (index df), length (columns df));
  to_csv := λ df kwargs,
    if bool_decide (Forall (λ key, key ∈ to_csv_keywords) (elements (dom kwargs)))
    then text_to_csv df kwargs
    else Raise TypeError;
  read_csv := text_read_csv |}.

(** ** A template to run the adapter on *)

Module Fixture.

Definition font : Font :=
  {| font_name := Some "Arial"; font_size := Some 1200; font_bold := Some true;
     font_italic := None; font_color := ThemeColor 1 |}.

Definition styled (f : Fill) (t : string) : Cell :=
  {| fill := f; margin_bottom := 10; margin_left := 20; margin_right := 30;
     margin_top := 40;
     paragraphs := [ {| runs := [ {| run_text := t; run_font := font |} ] |} ] |}.

(** An exemplar whose font is 10.12 points large. *)
Definition odd_size : Cell :=
  {| fill := FillSolid (RGBColor 7); margin_bottom := 10; margin_left := 20;
     margin_right := 30; margin_top := 40;
     paragraphs :=
       [ {| runs := [ {| run_text := "c";
                         run_font := {| font_name := Some "Arial";
                                        font_size := Some 1012;
                                        font_bold := Some true;
                                        font_italic := None;
                                        font_color := ThemeColor 1 |} |} ] |} ] |}.

Definition corner : Cell :=
  {| fill := FillNone; margin_bottom := 0; margin_left := 0; margin_right := 0;
     margin_top := 0; paragraphs := [ {| runs := [] |} ] |}.

Definition header : Row :=
  {| cells := [corner; styled (FillSolid (RGBColor 255)) "Header"]; height := 100 |}.
Definition band0 : Row :=
  {| cells := [styled FillBackground "a"; styled FillBackground "b"]; height := 100 |}.
Definition band1 : Row :=
  {| cells := [styled (FillSolid (RGBColor 7)) "c"; styled (FillSolid (RGBColor 7)) "d"]; height := 100 |}.

Definition frame (rs : list Row) : GraphicFrame :=
  {| left := 1; top := 2; width := 300; frame_height := 300;
     table := Some {| rows := rs |} |}.

Definition content (rs : list Row) : Slide :=
  {| shapes := [Placeholder true "Table"; Frame (frame rs); Placeholder false "note"] |}.

Definition blank (n : nat) : Slide :=
  {| shapes := [Placeholder true (pretty n)] |}.

Definition slide_id (n : nat) : CT_SlideId :=
  {| id := 256 + Z.of_nat n; rId := "rId" +:+ pretty n |}.

(** A document of [n] slides whose slide at position 40 is [s]. *)
Definition document (n : nat) (s : Slide) : Presentation :=
  {| _sldIdLst := map slide_id (seq 0 n);
     rels := list_to_map
               (map (λ k, (rId (slide_id k), if Nat.eqb k 40 then s else blank k))
                    (seq 0 n)) |}.

Definition path : string := "templates/Digital_Standard_format_Aug 25.pptx".

Definition world (n : nat) (rs : list Row) : World :=
  {| files := {[ path := document n (content rs) ]}; events := [] |}.

Definition data : TextFrame :=
  {| index_name := ""; columns := ["x"; "y"];
     index := ["0"; "1"; "2"];
     values := [["a"; "b"]; ["c"; "d"]; ["e"; "f"]] |}.

(** A frame without rows, and one with five. *)
Definition no_rows : TextFrame :=
  {| index_name := ""; columns := ["x"; "y"]; index := []; values := [] |}.

Definition five_rows : TextFrame :=
  {| index_name := "k"; columns := ["x"];
     index := ["0"; "1"; "2"; "3"; "4"];
     values := [["a"]; ["b"]; ["c"]; ["d"]; ["e"]] |}.

(** A frame with a vertical tab, and neither a comma nor a character the
    CSV writer quotes, in a cell. *)
Definition VT : ascii := ascii_of_nat 11.

Definition two_lines : TextFrame :=
  {| index_name := ""; columns := ["x"];
     index := ["0"];
     values := [["a" +:+ String VT "b"]] |}.

Definition exemplars : list Row := [header; band0; band1].

(** The template, what pruning leaves of it, and the adapter with the
    default options. *)
Definition template : World := world 42 exemplars.

Definition pruned (rs : list Row) : Presentation :=
  {| _sldIdLst := [slide_id 40]; rels := {[ rId (slide_id 40) := content rs ]} |}.

Definition data_set : PowerPointLocalDataSet := __init__ "out.pptx" None None.

(** A header row whose second cell has no run, and a deck whose first slide
    holds a table. *)
Definition bare_header : Row := {| cells := [corner; corner]; height := 100 |}.

(** A cell without run whose fill is solid, of a theme colour, and a header
    row with that cell as its second. *)
Definition tinted : Cell :=
  {| fill := FillSolid (ThemeColor 1); margin_bottom := 0; margin_left := 0;
     margin_right := 0; margin_top := 0; paragraphs := [ {| runs := [] |} ] |}.

Definition tinted_header : Row := {| cells := [corner; tinted]; height := 100 |}.

Definition deck : World :=
  {| files := {[ "deck.pptx" :=
                   {| _sldIdLst := [slide_id 0];
                      rels := {[ rId (slide_id 0) := content exemplars ]} |} ]};
     events := [] |}.

(** A frame with three index labels and the values of one row. *)
Definition ragged : TextFrame :=
  {| index_name := ""; columns := ["x"];
     index := ["0"; "1"; "2"];
     values := [["a"]] |}.

(** A template whose slide 40 has a table and no title placeholder, and
    what pruning leaves of it. *)
Definition untitled : Slide := {| shapes := [Frame (frame exemplars)] |}.

Definition untitled_template : World :=
  {| files := {[ path := document 42 untitled ]}; events := [] |}.

Definition pruned_untitled : Presentation :=
  {| _sldIdLst := [slide_id 40]; rels := {[ rId (slide_id 40) := untitled ]} |}.

(** An adapter that sets the title, and one with an option [to_csv] does not
    know. *)
Definition titled_data_set : PowerPointLocalDataSet :=
  __init__ "out.pptx" None (Some {[ "title" := PyStr "Hello" ]}).

Definition coloured_data_set : PowerPointLocalDataSet :=
  __init__ "out.pptx" None (Some {[ "colour" := PyStr "red" ]}).

End Fixture.

(** ** Notions the statements below use *)

(** The size a font ends up with when it is copied from [font]: the size
    of [font], read in points and written back. *)
Definition copied_size (font : Font) : Result Z :=
  size ← size_pt font;
  set_size size.

(** A fill the formatter can copy: no solid fill, or a solid fill of an
    RGB colour. *)
Definition fill_ok (like : Cell) : bool :=
  match fill like with
  | FillSolid (RGBColor _) => true
  | FillSolid _ => false
  | _ => true
  end.

(** A font the formatter can copy: it has a theme colour and a size, and
    the size can be written back. *)
Definition font_ok (font : Font) : bool :=
  match font_color font, copied_size font with
  | ThemeColor _, Ok _ => true
  | _, _ => false
  end.

(** An exemplar the formatter can copy from: its fill can be copied, its
    first paragraph has a first run, and the font of that run can be
    copied. *)
Definition exemplar_ok (like : Cell) : bool :=
  fill_ok like
  && match paragraphs like with
     | p :: _ => match runs p with
                 | r :: _ => font_ok (run_font r)
                 | [] => false
                 end
     | [] => false
     end.

(** A cell whose text frame has a first paragraph. *)
Definition has_paragraph (cell : Cell) : bool :=
  match paragraphs cell with
  | [] => false
  | _ :: _ => true
  end.

(** A shape the locator passes over. *)
Definition no_table (shape : Shape) : Prop := has_table shape = false.

(** The world after [Presentation(path)] and after [prs.save(path)]. *)
Definition opened (path : string) (w : World) : World :=
  {| files := files w; events := events w ++ [Opened path] |}.

Definition saved (prs : Presentation) (path : string) (w : World) : World :=
  {| files := <[path := prs]> (files w); events := events w ++ [Saved path] |}.

(** The relationships left once those of [xs] are dropped. *)
Definition drop_rels (xs : list CT_SlideId) (R : gmap string Slide) : gmap string Slide :=
  foldr (λ x R, delete (rId x) R) R xs.

(** The row [add_table] creates for [ncols] columns. *)
Definition new_row (ncols : nat) (h : Z) : Row :=
  {| cells := replicate ncols new_cell; height := h |}.

(** [cycle(bands)] hands out the two bands by the parity of the position. *)
Definition band (band0 band1 : Cell) (i : nat) : Cell :=
  if Nat.even i then band0 else band1.

(** The exemplar of the row at position [i] of the new table: the header
    exemplar for the first row, the bands in alternation below it. *)
Definition exemplar (like band0 band1 : Cell) (i : nat) : Cell :=
  match i with
  | O => like
  | S j => band band0 band1 j
  end.

(** The frame [_save] puts on the slide, from the old frame and its rows. *)
Definition build_table `{Pandas} (data : DataFrame) (save_args : gmap string PyVal)
    (old_table : GraphicFrame) (old_rows : list Row) : Result GraphicFrame :=
  let '(nrows, ncols) := shape data in
  '(header_row, first_data_row, second_data_row) ← unpack3 old_rows;
  let h := Z.of_nat (nrows + 1) * height header_row in
  csv ← to_csv data save_args;
  rows' ← fill_table
            (replicate (nrows + 1) (new_row (ncols + 1) (h / Z.of_nat (nrows + 1))))
            (splitlines csv) header_row first_data_row second_data_row;
  Ok {| left := left old_table; top := top old_table; width := width old_table;
        frame_height := h; table := Some {| rows := rows' |} |}.

(** The rows of the table [add_table] creates in [_save]. *)
Definition blank_row `{Pandas} (data : DataFrame) (header_row : Row) : Row :=
  new_row (S (shape data).2)
    (Z.of_nat ((shape data).1 + 1) * height header_row / Z.of_nat ((shape data).1 + 1)).

(** * Properties *)

(** ** Exceptions and the two monads *)

Lemma bind_Ok {A B} (m : Result A) (f : A → Result B) (b : B) :
  m ≫= f = Ok b ↔ ∃ a, m = Ok a ∧ f a = Ok b.
Proof.
  destruct m as [a|e]; simpl; split.
  - intros Hf. exists a. done.
  - intros (a' & [= <-] & Hf). done.
  - intros [=].
  - intros (a' & [=] & _).
Qed.

Lemma getitem_Ok {A} (l : list A) (i : nat) (x : A) :
  getitem l i = Ok x ↔ l !! i = Some x.
Proof. unfold getitem. destruct (l !! i); split; congruence. Qed.

Lemma getitem_Raise {A} (l : list A) (i : nat) :
  (length l ≤ i)%nat → getitem l i = Raise IndexError.
Proof. intros Hle. unfold getitem. by rewrite (lookup_ge_None_2 l i). Qed.

(** ** [split] and [join] *)

Lemma split_not_nil (sep : ascii) (s : string) : split sep s ≠ [].
Proof.
  destruct s as [|c s]; simpl; [done|].
  destruct (Ascii.eqb c sep); [done|]. by destruct (split sep s).
Qed.

Lemma split_length_pos (sep : ascii) (s : string) : (0 < length (split sep s))%nat.
Proof.
  pose proof (split_not_nil sep s) as Hne.
  destruct (split sep s); [done | simpl; lia].
Qed.

Lemma join_cons_char (sep : string) (c : ascii) (x : string) (rest : list string) :
  join sep (String c x :: rest) = String c (join sep (x :: rest)).
Proof. by destruct rest. Qed.

Lemma join_empty_head (sep : string) (rest : list string) :
  rest ≠ [] → join sep (EmptyString :: rest) = sep +:+ join sep rest.
Proof. by destruct rest. Qed.

Lemma split_has_escaped (c : ascii) (s : string) :
  has_escaped s = false → Forall (λ field, has_escaped field = false) (split c s).
Proof.
  induction s as [|a s IH]; simpl; [by repeat constructor|].
  intros [Ha Hs]%orb_false_iff. specialize (IH Hs).
  destruct (Ascii.eqb a c); [by constructor|].
  destruct IH as [|field fields Hfield Hfields]; constructor; simpl;
    try done; by rewrite ?Ha.
Qed.

(** Joining the fields of a line gives the line back, whatever it holds. *)
Lemma join_split (c : ascii) (s : string) :
  join (String c EmptyString) (split c s) = s.
Proof.
  induction s as [|a s IH]; simpl; [done|].
  destruct (Ascii.eqb_spec a c) as [->|Hne].
  - rewrite join_empty_head by apply split_not_nil. simpl. by rewrite IH.
  - pose proof (split_not_nil c s) as Hnil.
    destruct (split c s) as [|field fields]; [done|].
    rewrite join_cons_char. by rewrite IH.
Qed.

(** ** [splitlines] and the buffer of [_load] *)

Lemma is_linebreak_LF : is_linebreak LF = true.
Proof. reflexivity. Qed.

Lemma is_linebreak_CR (c : ascii) : Ascii.eqb c CR = true → is_linebreak c = true.
Proof. intros ->%Ascii.eqb_eq. reflexivity. Qed.

Lemma splitlines_line (line rest : string) :
  has_linebreak line = false →
  splitlines (line +:+ String LF rest) = line :: splitlines rest.
Proof.
  induction line as [|c line IH]; simpl; intros Hline.
  - done.
  - apply orb_false_iff in Hline as [Hc Hline].
    destruct (Ascii.eqb c CR) eqn:Hcr.
    { apply is_linebreak_CR in Hcr. congruence. }
    rewrite Hc, (IH Hline). done.
Qed.

Lemma splitlines_unlines (lines : list string) :
  Forall (λ line, has_linebreak line = false) lines →
  splitlines (unlines lines) = lines.
Proof.
  induction 1 as [|line lines Hline _ IH]; simpl; [done|].
  by rewrite splitlines_line, IH.
Qed.

(** ** The cell formatter *)

Lemma escape_plain (text : string) : has_escaped text = false → escape text = text.
Proof.
  induction text as [|c text IH]; simpl; [done|].
  intros [-> Htext]%orb_false_iff. by rewrite IH.
Qed.

Lemma copy_fill_Ok (like cell : Cell) (f : Fill) :
  copy_fill like cell = Ok f →
  f = match fill like with
      | FillBackground => FillBackground
      | FillSolid color => FillSolid color
      | _ => fill cell
      end.
Proof.
  unfold copy_fill. destruct (fill like) as [| |[]|]; by intros [= <-].
Qed.

Lemma fill_ok_copy (like cell : Cell) :
  fill_ok like = true → ∃ f, copy_fill like cell = Ok f.
Proof.
  unfold fill_ok, copy_fill. destruct (fill like) as [| |[]|]; by eauto.
Qed.

Lemma fill_not_ok_copy (like cell : Cell) :
  fill_ok like = false → copy_fill like cell = Raise AttributeError.
Proof.
  unfold fill_ok, copy_fill. by destruct (fill like) as [| |[]|].
Qed.

(** What [exemplar_ok] says of an exemplar. *)
Lemma exemplar_ok_inv (like : Cell) :
  exemplar_ok like = true →
  fill_ok like = true
  ∧ ∃ lp lps lr lrs index size sz,
      paragraphs like = lp :: lps ∧ runs lp = lr :: lrs
      ∧ font_color (run_font lr) = ThemeColor index
      ∧ size_pt (run_font lr) = Ok size ∧ set_size size = Ok sz.
Proof.
  unfold exemplar_ok. intros [Hfill Hruns]%andb_true_iff. split; [done|].
  destruct (paragraphs like) as [|lp lps]; [done|].
  destruct (runs lp) as [|lr lrs] eqn:Hlr; [done|].
  unfold font_ok, copied_size in Hruns.
  destruct (font_color (run_font lr)) as [| |index|] eqn:Hcolor; try done.
  destruct (size_pt (run_font lr)) as [size|] eqn:Hsize; [|done]. simpl in Hruns.
  destruct (set_size size) as [sz|] eqn:Hsz; [|done].
  by exists lp, lps, lr, lrs, index, size, sz.
Qed.

Lemma format_cell_ok (like cell : Cell) (value : string) :
  exemplar_ok like = true → has_paragraph cell = true →
  ∃ cell', format_cell like cell value = Ok cell'.
Proof.
  intros [Hfill (lp & lps & lr & lrs & index & size & sz & Hlp & Hlr & Hcolor
                   & Hsize & Hsz)]%exemplar_ok_inv Hcell.
  unfold has_paragraph in Hcell. unfold format_cell.
  destruct (fill_ok_copy like cell Hfill) as [f ->]. simpl.
  destruct (paragraphs cell) as [|p0 ps]; [done|].
  rewrite Hlp. simpl. rewrite Hlr. simpl. rewrite Hcolor. simpl.
  rewrite Hsize. simpl. unfold _set_font. rewrite Hsz. simpl. eauto.
Qed.

Lemma format_cell_no_run (like : Cell) (value : string) lp lps :
  fill_ok like = true →
  paragraphs like = lp :: lps → runs lp = [] →
  format_cell like new_cell value = Raise IndexError.
Proof.
  unfold format_cell. intros [f ->]%(fill_ok_copy like new_cell) -> Hruns.
  simpl. by rewrite Hruns.
Qed.

Lemma set_rPr_font_text name sz bold italic (ps : list Paragraph) :
  map paragraph_text (set_rPr_font name sz bold italic ps) = map paragraph_text ps.
Proof.
  unfold set_rPr_font. rewrite map_map. apply map_ext. intros [rs].
  unfold paragraph_text. simpl. by rewrite map_map.
Qed.

Lemma set_font_Ok name size bold italic (ps ps' : list Paragraph) :
  ps ≠ [] →
  _set_font name size bold italic ps = Ok ps' ↔
  ∃ sz, set_size size = Ok sz ∧ ps' = set_rPr_font name sz bold italic ps.
Proof.
  unfold _set_font. destruct ps as [|p ps]; [done|]. intros _.
  rewrite bind_Ok. split; intros (sz & Hsz & Heq); exists sz; split; congruence.
Qed.

Lemma set_font_text name size bold italic (ps ps' : list Paragraph) :
  _set_font name size bold italic ps = Ok ps' →
  map paragraph_text ps' = map paragraph_text ps.
Proof.
  destruct ps as [|p ps]; [by intros [= <-]|].
  intros (sz & _ & ->)%set_font_Ok; [|done]. apply set_rPr_font_text.
Qed.

(** A fresh cell reads back the value as the run stores it. *)
Lemma format_cell_new_text (like cell' : Cell) (value : string) :
  format_cell like new_cell value = Ok cell' → cell_text cell' = escape value.
Proof.
  unfold format_cell.
  intros (f & _ & Hrest)%bind_Ok. cbn [paragraphs new_cell] in Hrest.
  apply bind_Ok in Hrest as (lp & _ & Hrest).
  apply bind_Ok in Hrest as (lr & _ & Hrest).
  apply bind_Ok in Hrest as (index & _ & Hrest).
  apply bind_Ok in Hrest as (size & _ & Hrest).
  apply bind_Ok in Hrest as (ps' & Hps' & [= <-]).
  apply set_font_text in Hps'. unfold cell_text. cbn [paragraphs].
  rewrite Hps'. reflexivity.
Qed.

Lemma format_zip_length (like : Cell) (cs cs' : list Cell) (vs : list string) :
  format_zip like cs vs = Ok cs' → length cs' = length cs.
Proof.
  revert vs cs'. induction cs as [|c cs IH]; intros [|v vs] cs'; simpl;
    try (by intros [= <-]).
  intros (c' & _ & (rest & Hrest & [= <-])%bind_Ok)%bind_Ok.
  simpl. f_equal. eauto.
Qed.

(** The loop is [zip]: it formats the pairs, in order, and nothing else. *)
Lemma format_zip_pairs (like : Cell) (cs : list Cell) (vs : list string) :
  format_zip like cs vs =
    done ← mapM (λ p, format_cell like p.1 p.2) (zip cs vs);
    Ok (done ++ drop (length cs `min` length vs) cs).
Proof.
  revert vs. induction cs as [|c cs IH]; intros [|v vs]; simpl; try done.
  rewrite IH. destruct (format_cell like c v) as [c'|]; simpl; [|done].
  by destruct (mapM _ (zip cs vs)).
Qed.

Lemma mapM_lookup {A B} (f : A → Result B) (l : list A) (l' : list B) (i : nat) (x : A) :
  mapM f l = Ok l' → l !! i = Some x → ∃ y, l' !! i = Some y ∧ f x = Ok y.
Proof.
  revert l' i. induction l as [|a l IH]; intros l' i; simpl; [done|].
  intros (y & Hy & (ys & Hys & [= <-])%bind_Ok)%bind_Ok.
  destruct i as [|i]; simpl.
  - intros [= <-]. eauto.
  - eauto.
Qed.

Lemma mapM_length {A B} (f : A → Result B) (l : list A) (l' : list B) :
  mapM f l = Ok l' → length l' = length l.
Proof.
  revert l'. induction l as [|a l IH]; intros l'; simpl.
  - by intros [= <-].
  - intros (y & Hy & (ys & Hys & [= <-])%bind_Ok)%bind_Ok. simpl. f_equal. eauto.
Qed.

Lemma format_zip_ok (like : Cell) (cs : list Cell) (vs : list string) :
  exemplar_ok like = true →
  Forall (λ c, has_paragraph c = true) (take (length vs) cs) →
  ∃ cs', format_zip like cs vs = Ok cs'.
Proof.
  intros Hlike. revert vs. induction cs as [|c cs IH]; intros [|v vs]; simpl; eauto.
  intros [Hc Hcs]%Forall_cons.
  destruct (format_cell_ok like c v Hlike Hc) as [c' ->].
  destruct (IH vs Hcs) as [cs' ->]. simpl. eauto.
Qed.

(** A fresh row of as many cells as the line has fields reads back as the
    fields of the line, the way the runs store them. *)
Lemma format_zip_new_text (like : Cell) (vs : list string) (cs' : list Cell) :
  format_zip like (replicate (length vs) new_cell) vs = Ok cs' →
  map cell_text cs' = map escape vs.
Proof.
  revert cs'. induction vs as [|v vs IH]; intros cs'; simpl.
  - by intros [= <-].
  - intros (c' & Hc & (rest & Hrest & [= <-])%bind_Ok)%bind_Ok.
    simpl. f_equal; [by eapply format_cell_new_text | eauto].
Qed.

Lemma new_cells_have_paragraph (n k : nat) :
  Forall (λ c, has_paragraph c = true) (take k (replicate n new_cell)).
Proof. apply Forall_take, Forall_replicate. reflexivity. Qed.

Lemma take_min_length {A} (l : list A) (n : nat) :
  take (length l `min` n) l = take n l.
Proof.
  rewrite Nat.min_comm, <- take_take. by rewrite (take_ge l (length l)).
Qed.


(** ** The table locator *)

Lemma graphic_frame_loop_spec (l : list Shape) (i : nat) :
  match graphic_frame_loop l i with
  | Ok (j, f) => ∃ pre post, l = pre ++ Frame f :: post
                             ∧ j = (i + length pre)%nat
                             ∧ Forall no_table pre ∧ is_Some (table f)
  | Raise e => e = missing_table ∧ Forall no_table l
  end.
Proof.
  revert i. induction l as [|shape l IH]; intros i; simpl.
  - split; [done | constructor].
  - destruct (has_table shape) eqn:Hshape.
    + destruct shape as [b t|f]; [done|].
      exists [], l. simpl. repeat split; [lia | constructor |].
      by apply bool_decide_eq_true in Hshape.
    + specialize (IH (S i)). destruct (graphic_frame_loop l (S i)) as [[j f]|e].
      * destruct IH as (pre & post & -> & -> & Hpre & Hf).
        exists (shape :: pre), post. simpl. repeat split; [lia | | done].
        by constructor.
      * destruct IH as [-> Hl]. split; [done|]. by constructor.
Qed.

(** [_get_table] returns the table of the frame [_graphic_frame] leads to. *)
Lemma get_table_loop_frame (l : list Shape) (i : nat) :
  get_table_loop l = (p ← graphic_frame_loop l i; shape_table (Frame p.2)).
Proof.
  revert i. induction l as [|shape l IH]; intros i; simpl; [done|].
  destruct (has_table shape) eqn:Hshape; [|by apply IH].
  by destruct shape.
Qed.

Lemma get_table_frame (slide : Slide) :
  _get_table slide = (p ← _get_table_graphic_frame slide; shape_table (Frame p.2)).
Proof. apply get_table_loop_frame. Qed.

Lemma get_table_Raise (slide : Slide) (e : Exception) :
  _get_table slide = Raise e → _get_table_graphic_frame slide = Raise e.
Proof.
  rewrite get_table_frame. unfold _get_table_graphic_frame.
  pose proof (graphic_frame_loop_spec (shapes slide) 0) as Hspec.
  destruct (graphic_frame_loop (shapes slide) 0) as [[j f]|e']; simpl.
  - destruct Hspec as (_ & _ & _ & _ & _ & [t Ht]). by rewrite Ht.
  - by intros [= ->].
Qed.

(** ** [_load] and [_save], step by step *)

Section Steps.

Context `{Pandas}.
Variable template_path : string.

Lemma load_steps (self : PowerPointLocalDataSet) (w : World) (prs : Presentation) :
  files w !! _filepath self = Some prs →
  _load self w =
    ('(slide_name, load_args) ← pop "slide_name" (_load_args self);
     slide ← slides_getitem prs slide_name;
     table ← _get_table slide;
     read_csv (table_buffer table) load_args,
     opened (_filepath self) w).
Proof.
  intros Hfile. unfold _load, mbind, M_bind, Presentation_open. rewrite Hfile.
  fold (opened (_filepath self) w). unfold lift.
  destruct (pop "slide_name" (_load_args self)) as [[v args]|]; simpl; [|done].
  destruct (slides_getitem prs v); simpl; [|done].
  by destruct (_get_table _).
Qed.

Lemma get_template_steps (w : World) (prs : Presentation) :
  files w !! template_path = Some prs →
  _get_template template_path w =
    (slide_id_list ← delitem (enumerate (_sldIdLst prs)) 40;
     drop_slides (reverse slide_id_list) prs,
     opened template_path w).
Proof.
  intros Hfile. unfold _get_template, mbind, M_bind, Presentation_open.
  rewrite Hfile. fold (opened template_path w). unfold lift.
  by destruct (delitem _ 40).
Qed.

Lemma get_template_files (w w' : World) (r : Result Presentation) :
  _get_template template_path w = (r, w') → w' = opened template_path w.
Proof.
  unfold _get_template, mbind, M_bind, Presentation_open.
  fold (opened template_path w). unfold lift.
  destruct (files w !! template_path); [|by intros [= _ <-]].
  destruct (delitem _ 40); by intros [= _ <-].
Qed.

Lemma save_steps (self : PowerPointLocalDataSet) (data : DataFrame)
    (w w1 : World) (prs : Presentation) :
  truthy (default (PyBool true) (_save_args self !! "index")) = true →
  _get_template template_path w = (Ok prs, w1) →
  _save template_path self data w =
    match build self data prs with
    | Ok prs' => (Ok (), saved prs' (_filepath self) w1)
    | Raise e => (Raise e, w1)
    end.
Proof.
  intros Hindex Htemplate. unfold _save. rewrite Hindex. simpl.
  unfold mbind, M_bind. rewrite Htemplate. unfold lift.
  by destruct (build self data prs).
Qed.

End Steps.

(** C4.  [_get_table] scans the shapes of the slide in their order and
    returns the table of the first shape that has one; when no shape has a
    table it raises [DataSetError("slide does not contain a table")].
    [_load] locates its table with it, and so does [_save] for the table it
    replaces, so that both fail with that error on a slide without table. *)
Theorem get_table_first_or_missing `{Pandas} (slide : Slide) :
  match _get_table slide with
  | Ok t => ∃ pre f post, shapes slide = pre ++ Frame f :: post
                          ∧ Forall no_table pre ∧ table f = Some t
  | Raise e => e = missing_table ∧ Forall no_table (shapes slide)
  end
  ∧ (∀ self w prs slide_name load_args,
       files w !! _filepath self = Some prs →
       pop "slide_name" (_load_args self) = Ok (slide_name, load_args) →
       slides_getitem prs slide_name = Ok slide →
       (_load self w).1 =
         (table ← _get_table slide; read_csv (table_buffer table) load_args))
  ∧ (∀ self data prs slide0 title save_args e,
       slides prs = Ok [slide0] →
       pop "title" (_save_args self) = Ok (title, save_args) →
       match title with PyNone => Ok slide0 | _ => set_title slide0 title end
         = Ok slide →
       _get_table slide = Raise e →
       build self data prs = Raise e).
Proof.
  split; [|split].
  - rewrite get_table_frame. unfold _get_table_graphic_frame.
    pose proof (graphic_frame_loop_spec (shapes slide) 0) as Hspec.
    destruct (graphic_frame_loop (shapes slide) 0) as [[j f]|e]; simpl; [|done].
    destruct Hspec as (pre & post & Hl & _ & Hpre & [t Ht]). rewrite Ht.
    by exists pre, f, post.
  - intros self w prs v args Hfile Hpop Hslide.
    rewrite (load_steps self w prs Hfile), Hpop. simpl. by rewrite Hslide.
  - intros self data prs slide0 title args e Hslides Hpop Htitle Hmissing.
    unfold build. rewrite Hslides. simpl.
    assert (∃ sid, _sldIdLst prs = [sid]) as [sid Hsid].
    { unfold slides in Hslides. apply mapM_length in Hslides.
      destruct (_sldIdLst prs) as [|sid [|??]]; simpl in *; try done. eauto. }
    rewrite Hsid, Hpop. simpl. rewrite Htitle. simpl.
    by rewrite (get_table_Raise slide e Hmissing).
Qed.

(** ** Template pruning *)

Lemma map_fmap {A B} (f : A → B) (l : list A) : map f l = f <$> l.
Proof. reflexivity. Qed.

Lemma drop_rels_lookup (xs : list CT_SlideId) (R : gmap string Slide) (k : string) :
  drop_rels xs R !! k = if decide (k ∈ map rId xs) then None else R !! k.
Proof.
  induction xs as [|x xs IH]; simpl.
  - destruct (decide (k ∈ [])) as [Hin|]; [by apply elem_of_nil in Hin | done].
  - rewrite lookup_delete, IH.
    destruct (decide (rId x = k)) as [->|Hne].
    { rewrite decide_True; [done | left]. }
    destruct (decide (k ∈ map rId xs)) as [Hin|Hnin].
    + rewrite decide_True; [done | by right].
    + rewrite decide_False; [done|].
      intros [?|?]%elem_of_cons; congruence.
Qed.

Lemma drop_slides_app (l1 l2 : list (nat * CT_SlideId)) (prs : Presentation) :
  drop_slides (l1 ++ l2) prs = (prs1 ← drop_slides l1 prs; drop_slides l2 prs1).
Proof.
  revert prs. induction l1 as [|[i x] l1 IH]; intros prs; simpl; [done|].
  destruct (delitem _ i); simpl; [apply IH | done].
Qed.

(** Going down from the last of the slide ids [xs], every [del] hits the id
    it was enumerated with: what is in front of it has not moved yet. *)
Lemma drop_slides_descending (xs pre post : list CT_SlideId) (R : gmap string Slide) :
  drop_slides (reverse (zip (seq (length pre) (length xs)) xs))
      {| _sldIdLst := pre ++ xs ++ post; rels := R |}
  = Ok {| _sldIdLst := pre ++ post; rels := drop_rels xs R |}.
Proof.
  revert R. induction xs as [|y ys IH] using rev_ind; intros R; simpl; [done|].
  rewrite length_app. simpl. rewrite Nat.add_1_r, seq_S.
  rewrite zip_with_app by (by rewrite length_seq).
  simpl. rewrite reverse_app. simpl.
  unfold delitem. simpl. rewrite decide_True.
  2:{ rewrite !length_app. simpl. lia. }
  simpl. rewrite <- (assoc_L (++) ys [y] post). simpl.
  replace (length pre + length ys)%nat with (length (pre ++ ys))
    by (by rewrite length_app).
  rewrite (assoc_L (++) pre ys (y :: post)), delete_middle.
  rewrite <- (assoc_L (++) pre ys post), IH.
  unfold drop_rels. by rewrite foldr_app.
Qed.

Lemma enumerate_delete (A B : list CT_SlideId) (keep : CT_SlideId) :
  delete (length A) (enumerate (A ++ keep :: B))
  = zip (seq 0 (length A)) A ++ zip (seq (S (length A)) (length B)) B.
Proof.
  unfold enumerate. rewrite length_app. simpl.
  rewrite seq_app, zip_with_app by (by rewrite length_seq). simpl.
  replace (length A) with (length (zip (seq 0 (length A)) A)) at 1.
  2:{ rewrite length_zip_with, length_seq. lia. }
  by rewrite delete_middle.
Qed.


(** ** Filling the new table *)

Lemma format_cells_length (row row' : Row) (line : string) (like : Cell) :
  _format_cells row line like = Ok row' →
  length (cells row') = length (cells row).
Proof.
  unfold _format_cells. intros (cs' & Hcs' & [= <-])%bind_Ok. simpl.
  by eapply format_zip_length.
Qed.

Lemma format_cells_new_ok (ncols : nat) (h : Z) (line : string) (like : Cell) :
  exemplar_ok like = true →
  ∃ row', _format_cells (new_row ncols h) line like = Ok row'.
Proof.
  intros Hlike. unfold _format_cells. simpl.
  destruct (format_zip_ok like (replicate ncols new_cell) (split comma line) Hlike)
    as [cs' ->]; [apply new_cells_have_paragraph|].
  simpl. eauto.
Qed.

Lemma map_escape_plain (fields : list string) :
  Forall (λ field, has_escaped field = false) fields → map escape fields = fields.
Proof.
  induction 1 as [|field fields Hfield _ IH]; simpl; [done|].
  by rewrite escape_plain, IH.
Qed.

(** A fresh row with one cell per field of the line reads back as the line,
    when no character of the line is one that a run escapes. *)
Lemma format_cells_new_text (ncols : nat) (h : Z) (line : string) (like : Cell)
    (row' : Row) :
  has_escaped line = false →
  length (split comma line) = ncols →
  _format_cells (new_row ncols h) line like = Ok row' →
  join "," (map cell_text (cells row')) = line.
Proof.
  intros Hplain <-. unfold _format_cells. simpl.
  intros (cs' & Hcs' & [= <-])%bind_Ok. simpl.
  rewrite (format_zip_new_text _ _ _ Hcs').
  rewrite map_escape_plain by by apply split_has_escaped. apply join_split.
Qed.

Lemma format_cells_no_run (ncols : nat) (h : Z) (line : string) (like : Cell)
    (lp : Paragraph) (lps : list Paragraph) :
  fill_ok like = true → paragraphs like = lp :: lps → runs lp = [] →
  _format_cells (new_row (S ncols) h) line like = Raise IndexError.
Proof.
  intros Hfill Hlike Hruns. unfold _format_cells. simpl.
  pose proof (split_not_nil comma line) as Hne.
  destruct (split comma line) as [|v vs]; [done|]. simpl.
  by rewrite (format_cell_no_run like v lp lps Hfill Hlike Hruns).
Qed.

Lemma band_mod2 (band0 band1 : Cell) (i : nat) :
  [band0; band1] !! (i mod 2)%nat = Some (band band0 band1 i).
Proof.
  unfold band. rewrite <- Nat.bit0_mod, Nat.bit0_odd, <- Nat.negb_even.
  by destruct (Nat.even i).
Qed.

Lemma format_bands_spec (pairs : list (Row * string)) (band0 band1 : Cell)
    (rows' : list Row) :
  format_bands pairs [band0; band1] = Ok rows' →
  length rows' = length pairs
  ∧ ∀ i row line, pairs !! i = Some (row, line) →
      ∃ row', rows' !! i = Some row'
              ∧ _format_cells row line (band band0 band1 i) = Ok row'.
Proof.
  revert band0 band1 rows'.
  induction pairs as [|[row line] pairs IH]; intros band0 band1 rows'; simpl.
  - intros [= <-]. split; [done|]. intros i ?? Hi. by rewrite lookup_nil in Hi.
  - intros (row' & Hrow' & (rest & Hrest & [= <-])%bind_Ok)%bind_Ok.
    destruct (IH band1 band0 rest Hrest) as [Hlen Hbands].
    split; [simpl; by f_equal|].
    intros [|i] r l; simpl.
    + intros [= <- <-]. eauto.
    + intros Hi. destruct (Hbands i r l Hi) as (r' & Hr' & Hf).
      exists r'. split; [done|]. rewrite <- Hf. f_equal.
      unfold band. rewrite Nat.even_succ, <- Nat.negb_even.
      by destruct (Nat.even i).
Qed.

Lemma format_bands_ok (pairs : list (Row * string)) (band0 band1 : Cell) :
  Forall (λ p, ∀ like, like ∈ [band0; band1] →
                 ∃ row', _format_cells p.1 p.2 like = Ok row') pairs →
  ∃ rows', format_bands pairs [band0; band1] = Ok rows'.
Proof.
  intros Hpairs. revert band0 band1 Hpairs.
  induction pairs as [|[row line] pairs IH]; intros band0 band1 Hpairs; simpl; [eauto|].
  apply Forall_cons in Hpairs as [Hrow Hpairs]. simpl in Hrow.
  destruct (Hrow band0) as [row' ->]; [left|]. simpl.
  destruct (IH band1 band0) as [rows' ->]; [|simpl; eauto].
  eapply Forall_impl; [exact Hpairs|]. intros p Hp like Hlike. apply Hp.
  apply elem_of_cons in Hlike as [->|Hlike]; [right; left|].
  apply elem_of_cons in Hlike as [->|Hlike]; [left|]. by apply elem_of_nil in Hlike.
Qed.

Lemma fill_table_spec (new_rows : list Row) (lines : list string)
    (header_row first_data_row second_data_row : Row) (rows' : list Row) :
  fill_table new_rows lines header_row first_data_row second_data_row = Ok rows' →
  ∃ like band0 band1,
    cells header_row !! 1%nat = Some like
    ∧ cells first_data_row !! 0%nat = Some band0
    ∧ cells second_data_row !! 0%nat = Some band1
    ∧ length rows' = length new_rows
    ∧ (∀ i row line, new_rows !! i = Some row → lines !! i = Some line →
         ∃ row', rows' !! i = Some row'
                 ∧ _format_cells row line (exemplar like band0 band1 i) = Ok row')
    ∧ (∀ i, (length lines ≤ i)%nat → rows' !! i = new_rows !! i).
Proof.
  unfold fill_table.
  destruct (zip new_rows lines) as [|[row0 line0] pairs] eqn:Hzip; [done|].
  intros (like & Hlike%getitem_Ok & (row0' & Hrow0 & (band0 & Hb0%getitem_Ok
    & (band1 & Hb1%getitem_Ok & (rest & Hrest & [= <-])%bind_Ok)%bind_Ok)%bind_Ok)
    %bind_Ok)%bind_Ok.
  exists like, band0, band1. repeat (split; [done|]).
  destruct (format_bands_spec _ _ _ _ Hrest) as [Hlen Hbands].
  assert (length (zip new_rows lines) = S (length rest)) as Hzl.
  { rewrite Hzip. simpl. by rewrite Hlen. }
  rewrite length_zip_with in Hzl.
  split; [|split].
  - simpl. rewrite length_app, length_drop. simpl. lia.
  - intros i row line Hrow Hline.
    assert (zip new_rows lines !! i = Some (row, line)) as Hi.
    { rewrite lookup_zip_with, Hrow. simpl. by rewrite Hline. }
    rewrite Hzip in Hi. destruct i as [|i]; simpl in *.
    + injection Hi as <- <-. eauto.
    + destruct (Hbands i row line Hi) as (row' & Hr' & Hf).
      exists row'. split; [|done]. by apply lookup_app_l_Some.
  - intros i Hi. simpl in Hzl.
    destruct i as [|i]; [lia|]. simpl.
    rewrite lookup_app_r by lia. rewrite lookup_drop. f_equal. lia.
Qed.

Lemma fill_table_ok (nrows ncols : nat) (h : Z) (line : string) (lines : list string)
    (header_row first_data_row second_data_row : Row) (like band0 band1 : Cell) :
  cells header_row !! 1%nat = Some like → exemplar_ok like = true →
  cells first_data_row !! 0%nat = Some band0 → exemplar_ok band0 = true →
  cells second_data_row !! 0%nat = Some band1 → exemplar_ok band1 = true →
  ∃ rows', fill_table (replicate (S nrows) (new_row ncols h)) (line :: lines)
             header_row first_data_row second_data_row = Ok rows'.
Proof.
  intros Hlike Hlok Hb0 Hb0ok Hb1 Hb1ok. unfold fill_table. simpl.
  apply getitem_Ok in Hlike, Hb0, Hb1. rewrite Hlike. simpl.
  destruct (format_cells_new_ok ncols h line like Hlok) as [row0' ->]. simpl.
  rewrite Hb0. simpl. rewrite Hb1. simpl.
  destruct (format_bands_ok (zip (replicate nrows (new_row ncols h)) lines) band0 band1)
    as [rows' ->]; [|simpl; eauto].
  apply Forall_forall. intros [row l] (i & Hi)%list_elem_of_lookup_1 ex Hex.
  apply lookup_zip_with_Some in Hi as (row1 & l1 & [= <- <-] & Hrow & _).
  apply lookup_replicate in Hrow as [-> _]. simpl.
  apply format_cells_new_ok.
  apply elem_of_cons in Hex as [->|Hex]; [done|].
  apply elem_of_cons in Hex as [->|Hex]; [done|]. by apply elem_of_nil in Hex.
Qed.

(** ** Replacing the table on the slide *)

(** The new frame ends up where the old one was. *)
Lemma replace_table_middle (pre post : list Shape) (old : Shape) (new : GraphicFrame) :
  replace_table (pre ++ old :: post) (length pre) new = pre ++ Frame new :: post.
Proof.
  unfold replace_table, insert_at.
  replace (delete (length (pre ++ old :: post)) ((pre ++ old :: post) ++ [Frame new]))
    with (pre ++ old :: post).
  2:{ rewrite delete_middle. by rewrite app_nil_r. }
  replace (S (length pre)) with (length (pre ++ [old]))
    by (rewrite length_app; simpl; lia).
  rewrite (cons_middle old pre post), (assoc_L (++) pre [old] post).
  rewrite take_app_length, drop_app_length.
  rewrite <- (assoc_L (++) pre [old] (Frame new :: post)). simpl.
  by rewrite delete_middle.
Qed.

Lemma get_table_loop_middle (pre post : list Shape) (f : GraphicFrame) (t : Table) :
  Forall no_table pre → table f = Some t →
  get_table_loop (pre ++ Frame f :: post) = Ok t.
Proof.
  intros Hpre Ht. induction Hpre as [|shape pre Hshape _ IH]; simpl.
  - rewrite Ht. rewrite bool_decide_eq_true_2 by eauto. done.
  - unfold no_table in Hshape. by rewrite Hshape.
Qed.

Lemma slides_single (prs : Presentation) (slide : Slide) :
  slides prs = Ok [slide] ↔
  ∃ sid, _sldIdLst prs = [sid] ∧ rels prs !! rId sid = Some slide.
Proof.
  unfold slides, related_slide. split.
  - destruct (_sldIdLst prs) as [|sid [|sid' lst]]; simpl; [done| |].
    + destruct (rels prs !! rId sid) as [s|] eqn:Hs; simpl; [|done].
      intros [= ->]. eauto.
    + destruct (rels prs !! rId sid); simpl; [|done].
      destruct (rels prs !! rId sid'); simpl; [|done].
      by destruct (mapM _ lst).
  - intros (sid & -> & Hs). simpl. by rewrite Hs.
Qed.

Section Build.

Context `{Pandas}.

Lemma build_steps (self : PowerPointLocalDataSet) (data : DataFrame)
    (prs : Presentation) (slide0 slide : Slide) (title : PyVal)
    (save_args : gmap string PyVal) (i : nat) (old_table : GraphicFrame) (t : Table) :
  slides prs = Ok [slide0] →
  pop "title" (_save_args self) = Ok (title, save_args) →
  match title with PyNone => Ok slide0 | _ => set_title slide0 title end = Ok slide →
  _get_table_graphic_frame slide = Ok (i, old_table) →
  table old_table = Some t →
  ∃ sid, _sldIdLst prs = [sid] ∧ rels prs !! rId sid = Some slide0
    ∧ build self data prs =
        (filled ← build_table data save_args old_table (rows t);
         Ok {| _sldIdLst := [sid];
               rels := <[rId sid := {| shapes := replace_table (shapes slide) i filled |}]>
                         (rels prs) |}).
Proof.
  intros Hslides Hpop Htitle Hframe Htable.
  pose proof Hslides as (sid & Hsid & Hrel)%slides_single.
  exists sid. repeat (split; [done|]).
  unfold build, build_table. rewrite Hslides, Hsid. simpl. rewrite Hpop. simpl.
  rewrite Htitle. simpl. rewrite Hframe. simpl. rewrite Htable. simpl.
  destruct (shape data) as [nrows ncols].
  destruct (unpack3 (rows t)) as [[[header_row b0] b1]|]; simpl; [|done].
  unfold new_row. destruct (to_csv data save_args) as [csv|]; simpl; [|done].
  by destruct (fill_table _ _ _ _ _).
Qed.

End Build.

(** ** The options of the adapter *)

Lemma init_save_arg (filepath : string) (load_args : option (gmap string PyVal))
    (save_args : gmap string PyVal) (key : string) (v : PyVal) :
  save_args !! key = Some v →
  _save_args (__init__ filepath load_args (Some save_args)) !! key = Some v.
Proof. intros Hv. simpl. by apply lookup_union_Some_l. Qed.

Lemma init_load_arg (filepath : string) (load_args save_args : option (gmap string PyVal))
    (key : string) :
  _load_args (__init__ filepath load_args save_args) !! key =
    match load_args ≫= (.!! key) with
    | Some v => Some v
    | None => default_load_args !! key
    end.
Proof.
  destruct load_args as [args|]; simpl; [|done].
  rewrite lookup_union. by destruct (args !! key), (default_load_args !! key).
Qed.

(** C5.  With the [index] option of [save_args] set to a false value, as in
    [save_args={"index": False}], [_save] raises [AssertionError] and leaves
    the world as it found it: no document has been opened, none written. *)
Theorem save_index_disabled_asserts `{Pandas} (template_path filepath : string)
    (load_args : option (gmap string PyVal)) (save_args : gmap string PyVal)
    (v : PyVal) (data : DataFrame) (w : World) :
  save_args !! "index" = Some v → truthy v = false →
  _save template_path (__init__ filepath load_args (Some save_args)) data w
    = (Raise AssertionError, w).
Proof.
  intros Hv Hfalse. unfold _save.
  rewrite (init_save_arg filepath load_args save_args "index" v Hv). simpl.
  by rewrite Hfalse.
Qed.

(** C7 (amended).  [index_col] is a default, not a fixed option: [_load]
    hands [read_csv] the load options without [slide_name], and in them
    [index_col] is what the user supplied, and [0] only when the user
    supplied none. *)
Theorem index_col_defaults_to_0 `{Pandas} (filepath : string)
    (load_args save_args : option (gmap string PyVal))
    (w : World) (prs : Presentation) :
  files w !! filepath = Some prs →
  let self := __init__ filepath load_args save_args in
  ∃ slide_name kwargs,
    pop "slide_name" (_load_args self) = Ok (slide_name, kwargs)
    ∧ kwargs !! "index_col" = Some (default (PyInt 0) (load_args ≫= (.!! "index_col")))
    ∧ (_load self w).1 =
        (slide ← slides_getitem prs slide_name;
         table ← _get_table slide;
         read_csv (table_buffer table) kwargs).
Proof.
  intros Hfile self. unfold pop.
  pose proof (init_load_arg filepath load_args save_args "slide_name") as Hname.
  pose proof (init_load_arg filepath load_args save_args "index_col") as Hcol.
  fold self in Hname, Hcol.
  destruct (_load_args self !! "slide_name") as [slide_name|] eqn:Hsn.
  2:{ by destruct (load_args ≫= (.!! "slide_name")). }
  exists slide_name, (delete "slide_name" (_load_args self)).
  split; [done|]. split.
  - rewrite lookup_delete_ne by done. rewrite Hcol.
    by destruct (load_args ≫= (.!! "index_col")).
  - rewrite (load_steps self w prs Hfile).
    unfold pop. by rewrite Hsn.
Qed.

(** ** Saving on a pruned template *)

Section SaveOnTemplate.

Context `{Pandas}.
Variable template_path : string.
Variables (self : PowerPointLocalDataSet) (data : DataFrame) (w w1 : World).
Variables (prs : Presentation) (slide0 slide : Slide).
Variables (title : PyVal) (save_args : gmap string PyVal).
Variables (i : nat) (old_table : GraphicFrame) (t : Table).

(** The [index] option is not disabled, the template opens and prunes to
    [prs], whose one slide [slide0] becomes [slide] once the title is set,
    and [old_table], with table [t], is the frame the locator finds. *)
Hypothesis Hindex : truthy (default (PyBool true) (_save_args self !! "index")) = true.
Hypothesis Htemplate : _get_template template_path w = (Ok prs, w1).
Hypothesis Hslides : slides prs = Ok [slide0].
Hypothesis Hpop : pop "title" (_save_args self) = Ok (title, save_args).
Hypothesis Htitle :
  match title with PyNone => Ok slide0 | _ => set_title slide0 title end = Ok slide.
Hypothesis Hframe : _get_table_graphic_frame slide = Ok (i, old_table).
Hypothesis Htable : table old_table = Some t.

Lemma save_on_template :
  ∃ sid, _sldIdLst prs = [sid] ∧ rels prs !! rId sid = Some slide0
    ∧ _save template_path self data w =
        match build_table data save_args old_table (rows t) with
        | Ok filled =>
            (Ok (),
             saved {| _sldIdLst := [sid];
                      rels := <[rId sid :=
                                 {| shapes := replace_table (shapes slide) i filled |}]>
                                (rels prs) |}
                   (_filepath self) w1)
        | Raise e => (Raise e, w1)
        end.
Proof.
  destruct (build_steps self data prs slide0 slide title save_args i old_table t
              Hslides Hpop Htitle Hframe Htable) as (sid & Hsid & Hrel & Hbuild).
  exists sid. repeat (split; [done|]).
  rewrite (save_steps template_path self data w w1 prs Hindex Htemplate), Hbuild.
  by destruct (build_table _ _ _ _).
Qed.

Lemma nothing_written : files w1 = files w.
Proof. by rewrite (get_template_files template_path w w1 _ Htemplate). Qed.

(** C8.  When the table of the template has fewer than three rows, the
    unpacking of its rows into the header row and the two band rows runs out
    of rows: [_save] raises Python's [ValueError] for a sequence that is too
    short, not the [DataSetError] of the adapter, and writes nothing. *)
Theorem save_short_table_fails :
  (length (rows t) < 3)%nat →
  _save template_path self data w = (Raise ValueError, w1)
  ∧ ValueError ≠ missing_table
  ∧ files w1 = files w.
Proof.
  intros Hshort. split; [|split; [done | apply nothing_written]].
  destruct save_on_template as (sid & _ & _ & ->).
  unfold build_table. destruct (shape data) as [nrows ncols].
  by destruct (rows t) as [|r0 [|r1 [|r2 rest]]]; simpl in *; try lia.
Qed.

Variables (header_row first_data_row second_data_row : Row) (more_rows : list Row).
Variable csv : string.

(** The table has its three exemplar rows and the frame serializes. *)
Hypothesis Hrows :
  rows t = header_row :: first_data_row :: second_data_row :: more_rows.
Hypothesis Hcsv : to_csv data save_args = Ok csv.

Lemma build_table_fill :
  build_table data save_args old_table (rows t) =
    (let h := Z.of_nat ((shape data).1 + 1) * height header_row in
     rows' ← fill_table
               (replicate (S (shape data).1)
                  (new_row (S (shape data).2) (h / Z.of_nat ((shape data).1 + 1))))
               (splitlines csv) header_row first_data_row second_data_row;
     Ok {| left := left old_table; top := top old_table; width := width old_table;
           frame_height := h; table := Some {| rows := rows' |} |}).
Proof.
  unfold build_table. destruct (shape data) as [nrows ncols]. rewrite Hrows. simpl.
  rewrite Hcsv. simpl. by rewrite !Nat.add_1_r.
Qed.

(** C10 (amended).  The exemplar of the header row is
    [header_row.cells[1]], and the formatter reads [paragraphs[0].runs[0]]
    of its exemplar, after it has copied the fill.  So when the header row
    of the template has fewer than two cells, or the fill of that second
    cell can be copied and its first paragraph has no run, [_save] raises
    [IndexError] and writes nothing. *)
Theorem save_header_exemplar_index_error :
  splitlines csv ≠ [] →
  (length (cells header_row) < 2)%nat
  ∨ (∃ like p ps, cells header_row !! 1%nat = Some like
                  ∧ fill_ok like = true
                  ∧ paragraphs like = p :: ps ∧ runs p = []) →
  _save template_path self data w = (Raise IndexError, w1)
  ∧ files w1 = files w.
Proof.
  intros Hlines Hbad. split; [|apply nothing_written].
  destruct save_on_template as (sid & _ & _ & ->).
  rewrite build_table_fill. cbn zeta. unfold fill_table.
  destruct (splitlines csv) as [|line lines]; [done|]. simpl.
  destruct Hbad as [Hshort|(like & p & ps & Hlike & Hfill & Hp & Hruns)].
  - by rewrite (getitem_Raise (cells header_row) 1) by lia.
  - apply getitem_Ok in Hlike. rewrite Hlike. simpl.
    by rewrite (format_cells_no_run _ _ line like p ps Hfill Hp Hruns).
Qed.

Variables (like band0 band1 : Cell).

(** The three exemplar cells are there and usable, and the serialized text
    has a first line. *)
Hypothesis Hlike : cells header_row !! 1%nat = Some like.
Hypothesis Hband0 : cells first_data_row !! 0%nat = Some band0.
Hypothesis Hband1 : cells second_data_row !! 0%nat = Some band1.
Hypothesis Hlike_ok : exemplar_ok like = true.
Hypothesis Hband0_ok : exemplar_ok band0 = true.
Hypothesis Hband1_ok : exemplar_ok band1 = true.
Hypothesis Hlines : splitlines csv ≠ [].

Lemma save_ok :
  ∃ prs' slide' rows',
    _save template_path self data w = (Ok (), saved prs' (_filepath self) w1)
    ∧ fill_table (replicate (S (shape data).1) (blank_row data header_row)) (splitlines csv)
        header_row first_data_row second_data_row = Ok rows'
    ∧ (∃ sid, _sldIdLst prs' = [sid] ∧ rels prs' !! rId sid = Some slide')
    ∧ _get_table slide' = Ok {| rows := rows' |}.
Proof.
  destruct save_on_template as (sid & Hsid & Hrel & ->).
  rewrite build_table_fill. cbn zeta. fold (blank_row data header_row).
  destruct (splitlines csv) as [|line lines] eqn:Hsplit; [done|].
  destruct (fill_table_ok (shape data).1 (S (shape data).2) (height (blank_row data header_row))
              line lines header_row first_data_row second_data_row like band0 band1
              Hlike Hlike_ok Hband0 Hband0_ok Hband1 Hband1_ok) as [rows' Hfill].
  change (new_row _ (height (blank_row data header_row))) with (blank_row data header_row) in Hfill.
  rewrite Hfill. simpl.
  pose proof (graphic_frame_loop_spec (shapes slide) 0) as Hspec.
  unfold _get_table_graphic_frame in Hframe. rewrite Hframe in Hspec.
  destruct Hspec as (pre & post & Hshapes & -> & Hpre & _). simpl.
  rewrite Hshapes, replace_table_middle.
  eexists _, _, rows'. split; [done|]. split; [done|]. split.
  - exists sid. simpl. split; [done|]. by rewrite lookup_insert_eq.
  - unfold _get_table. simpl. by apply get_table_loop_middle.
Qed.

(** C2.  The table [_save] puts on the slide has one row more than the data
    has rows and one column more than it has columns, also for data without
    rows, whose table is the header row alone. *)
Theorem save_table_shape :
  ∃ prs' slide' table',
    _save template_path self data w = (Ok (), saved prs' (_filepath self) w1)
    ∧ slides prs' = Ok [slide']
    ∧ _get_table slide' = Ok table'
    ∧ length (rows table') = ((shape data).1 + 1)%nat
    ∧ Forall (λ row, length (cells row) = ((shape data).2 + 1)%nat) (rows table').
Proof.
  destruct save_ok as (prs' & slide' & rows' & Hsave & Hfill & Hsid & Htbl).
  exists prs', slide', {| rows := rows' |}. split; [done|].
  split; [by apply slides_single|]. split; [done|]. simpl.
  destruct (fill_table_spec _ _ _ _ _ _ Hfill)
    as (ex & b0 & b1 & _ & _ & _ & Hlen & Hfmt & Hrest).
  rewrite length_replicate in Hlen. split; [lia|].
  apply Forall_lookup. intros k row' Hk.
  assert (replicate (S (shape data).1) (blank_row data header_row) !! k = Some (blank_row data header_row)) as Hnew.
  { apply lookup_replicate. split; [done|]. apply lookup_lt_Some in Hk. lia. }
  assert (length (cells (blank_row data header_row)) = ((shape data).2 + 1)%nat) as Hblank.
  { simpl. rewrite length_replicate. lia. }
  destruct (splitlines csv !! k) as [line|] eqn:Hline.
  - destruct (Hfmt k (blank_row data header_row) line Hnew Hline) as (r & Hr & Hf).
    rewrite Hk in Hr. injection Hr as <-.
    by rewrite (format_cells_length _ _ _ _ Hf).
  - apply lookup_ge_None in Hline. rewrite (Hrest k Hline), Hnew in Hk.
    by injection Hk as <-.
Qed.

(** C3.  In the table [_save] puts on the slide the first row is the output
    of the formatter for the first line with the header exemplar, and the
    row of the data row [k] is its output for the line of that row with the
    band exemplar [bands[k mod 2]]: the first band for data row 0, then the
    two in alternation. *)
Theorem save_rows_styled :
  ∃ prs' slide' table',
    _save template_path self data w = (Ok (), saved prs' (_filepath self) w1)
    ∧ slides prs' = Ok [slide']
    ∧ _get_table slide' = Ok table'
    ∧ (∃ line row', splitlines csv !! 0%nat = Some line
                    ∧ rows table' !! 0%nat = Some row'
                    ∧ _format_cells (blank_row data header_row) line like = Ok row')
    ∧ (∀ k line, (k < (shape data).1)%nat → splitlines csv !! S k = Some line →
         ∃ bnd row', [band0; band1] !! (k mod 2)%nat = Some bnd
                     ∧ rows table' !! S k = Some row'
                     ∧ _format_cells (blank_row data header_row) line bnd = Ok row').
Proof.
  destruct save_ok as (prs' & slide' & rows' & Hsave & Hfill & Hsid & Htbl).
  exists prs', slide', {| rows := rows' |}. split; [done|].
  split; [by apply slides_single|]. split; [done|]. simpl.
  destruct (fill_table_spec _ _ _ _ _ _ Hfill)
    as (like' & b0 & b1 & Hl & Hb0 & Hb1 & _ & Hfmt & _).
  rewrite Hlike in Hl. rewrite Hband0 in Hb0. rewrite Hband1 in Hb1.
  injection Hl as <-. injection Hb0 as <-. injection Hb1 as <-.
  split.
  - destruct (splitlines csv) as [|line lines] eqn:Hsplit; [done|].
    destruct (Hfmt 0%nat (blank_row data header_row) line) as (row' & Hr & Hf); [done..|].
    by exists line, row'.
  - intros k line Hk Hline.
    destruct (Hfmt (S k) (blank_row data header_row) line) as (row' & Hr & Hf); [|done|].
    { apply lookup_replicate. split; [done | lia]. }
    exists (band band0 band1 k), row'. split; [apply band_mod2 | done].
Qed.

Variable lines : list string.

(** The serialized text is one line-feed-terminated line per row and for the
    header, without line boundaries inside a line, without a control
    character that a run escapes, and with one field per column and for the
    index in each; the adapter reads slide 0, and pandas parses the text
    back to the data. *)
Hypothesis Hunlines : csv = unlines lines.
Hypothesis Hbreaks : Forall (λ line, has_linebreak line = false) lines.
Hypothesis Hplain : Forall (λ line, has_escaped line = false) lines.
Hypothesis Hcount : length lines = ((shape data).1 + 1)%nat.
Hypothesis Hfields :
  Forall (λ line, length (split comma line) = ((shape data).2 + 1)%nat) lines.
Hypothesis Hslide_name : _load_args self !! "slide_name" = Some (PyInt 0).
Hypothesis Hread :
  read_csv csv (delete "slide_name" (_load_args self)) = Ok data.


End SaveOnTemplate.

(** * The theorems at work on a template *)

Import Fixture.

Lemma template_prunes (rs : list Row) :
  _get_template path (world 42 rs) = (Ok (pruned rs), opened path (world 42 rs)).
Proof. vm_compute. reflexivity. Qed.


Lemma get_table_first_or_missing_witness :
  build (H := csv_text) data_set data
    {| _sldIdLst := [slide_id 0]; rels := {[ rId (slide_id 0) := blank 0 ]} |}
  = Raise missing_table.
Proof.
  apply (proj2 (proj2 (get_table_first_or_missing (H := csv_text) (blank 0)))
           data_set data _ (blank 0) PyNone ∅ missing_table);
    vm_compute; reflexivity.
Defined.


Lemma save_index_disabled_asserts_witness :
  _save (H := csv_text) path
    (__init__ "out.pptx" None (Some {[ "index" := PyBool false ]})) data template
  = (Raise AssertionError, template).
Proof.
  apply (save_index_disabled_asserts (H := csv_text) path "out.pptx" None
           {[ "index" := PyBool false ]} (PyBool false) data template);
    reflexivity.
Defined.

Lemma index_col_defaults_to_0_witness :
  ∃ slide_name kwargs,
    pop "slide_name" (_load_args (__init__ "deck.pptx" None None))
      = Ok (slide_name, kwargs)
    ∧ kwargs !! "index_col" = Some (PyInt 0).
Proof.
  destruct (index_col_defaults_to_0 (H := recorder) "deck.pptx" None None deck
              {| _sldIdLst := [slide_id 0];
                 rels := {[ rId (slide_id 0) := content exemplars ]} |})
    as (slide_name & kwargs & Hpop & Hcol & _).
  - vm_compute. reflexivity.
  - exists slide_name, kwargs. split; assumption.
Defined.

(** C7, as stated, fails: the user who passes [index_col=1] has the buffer
    parsed with [index_col=1]. *)
Lemma index_col_overridden :
  ∃ buffer kwargs,
    (_load (H := recorder)
       (__init__ "deck.pptx" (Some {[ "index_col" := PyInt 1 ]}) None) deck).1
      = Ok (buffer, kwargs)
    ∧ kwargs !! "index_col" = Some (PyInt 1)
    ∧ kwargs !! "index_col" ≠ Some (PyInt 0).
Proof.
  eexists _, _. split; [vm_compute; reflexivity|].
  split; [vm_compute; reflexivity | vm_compute; discriminate].
Qed.

Lemma save_short_table_fails_witness :
  _save (H := csv_text) path data_set data (world 42 [header; band0])
    = (Raise ValueError, opened path (world 42 [header; band0])).
Proof.
  apply (save_short_table_fails (H := csv_text) path data_set data
           (world 42 [header; band0]) _ (pruned [header; band0])
           (content [header; band0]) (content [header; band0]) PyNone ∅
           1%nat (frame [header; band0]) {| rows := [header; band0] |}).
  - reflexivity.
  - apply template_prunes.
  - vm_compute. reflexivity.
  - vm_compute. reflexivity.
  - reflexivity.
  - vm_compute. reflexivity.
  - reflexivity.
  - simpl. lia.
Defined.

Lemma save_header_exemplar_index_error_witness :
  _save (H := csv_text) path data_set data (world 42 [bare_header; band0; band1])
    = (Raise IndexError, opened path (world 42 [bare_header; band0; band1])).
Proof.
  apply (save_header_exemplar_index_error (H := csv_text) path data_set data
           (world 42 [bare_header; band0; band1]) _
           (pruned [bare_header; band0; band1])
           (content [bare_header; band0; band1])
           (content [bare_header; band0; band1]) PyNone ∅
           1%nat (frame [bare_header; band0; band1])
           {| rows := [bare_header; band0; band1] |})
    with (header_row := bare_header) (first_data_row := band0)
         (second_data_row := band1) (more_rows := [])
         (csv := unlines [",x,y"; "0,a,b"; "1,c,d"; "2,e,f"]).
  - reflexivity.
  - apply template_prunes.
  - vm_compute. reflexivity.
  - vm_compute. reflexivity.
  - reflexivity.
  - vm_compute. reflexivity.
  - reflexivity.
  - reflexivity.
  - vm_compute. reflexivity.
  - vm_compute. discriminate.
  - right. exists corner, {| runs := [] |}, []. repeat split.
Defined.

(** C10, as stated, fails: the first paragraph of the header exemplar has
    no run, but its fill is solid with a theme colour, and [_save] raises
    [AttributeError] when it copies the fill, before it looks for the run. *)
Lemma header_exemplar_fill_raises_first :
  (∃ like p ps, cells tinted_header !! 1%nat = Some like
                ∧ paragraphs like = p :: ps ∧ runs p = [])
  ∧ _save (H := csv_text) path data_set data (world 42 [tinted_header; band0; band1])
    = (Raise AttributeError, opened path (world 42 [tinted_header; band0; band1])).
Proof.
  split.
  - exists tinted, {| runs := [] |}, []. repeat split.
  - vm_compute. reflexivity.
Qed.

(** The hypotheses the theorems on [_save] share, on the fixture. *)
Ltac on_template :=
  lazymatch goal with
  | |- _get_template _ _ = _ => apply template_prunes
  | |- _ ≠ _ => vm_compute; discriminate
  | |- Forall _ _ => vm_compute; repeat constructor
  | |- _ => vm_compute; reflexivity
  end.

Lemma save_table_shape_witness :
  ∃ prs' slide' table',
    _save (H := csv_text) path data_set no_rows template
      = (Ok (), saved prs' "out.pptx" (opened path template))
    ∧ slides prs' = Ok [slide']
    ∧ _get_table slide' = Ok table'
    ∧ length (rows table') = 1%nat
    ∧ Forall (λ row, length (cells row) = 3%nat) (rows table').
Proof.
  apply (save_table_shape (H := csv_text) path data_set no_rows template _
           (pruned exemplars) (content exemplars) (content exemplars) PyNone ∅
           1%nat (frame exemplars) {| rows := exemplars |})
    with (header_row := header) (first_data_row := band0) (second_data_row := band1)
         (more_rows := []) (csv := unlines [",x,y"])
         (like := styled (FillSolid (RGBColor 255)) "Header")
         (band0 := styled FillBackground "a") (band1 := styled (FillSolid (RGBColor 7)) "c");
    on_template.
Defined.

Lemma save_rows_styled_witness :
  ∃ prs' slide' table' row1 row2 row5,
    _save (H := csv_text) path data_set five_rows template
      = (Ok (), saved prs' "out.pptx" (opened path template))
    ∧ slides prs' = Ok [slide']
    ∧ _get_table slide' = Ok table'
    ∧ rows table' !! 1%nat = Some row1
    ∧ _format_cells (blank_row (H := csv_text) five_rows header) "0,a"
        (styled FillBackground "a") = Ok row1
    ∧ rows table' !! 2%nat = Some row2
    ∧ _format_cells (blank_row (H := csv_text) five_rows header) "1,b"
        (styled (FillSolid (RGBColor 7)) "c") = Ok row2
    ∧ rows table' !! 5%nat = Some row5
    ∧ _format_cells (blank_row (H := csv_text) five_rows header) "4,e"
        (styled FillBackground "a") = Ok row5.
Proof.
  destruct (save_rows_styled (H := csv_text) path data_set five_rows template
              (opened path template)
              (pruned exemplars) (content exemplars) (content exemplars) PyNone ∅
              1%nat (frame exemplars) {| rows := exemplars |})
    with (header_row := header) (first_data_row := band0) (second_data_row := band1)
         (more_rows := @nil Row)
         (csv := unlines ["k,x"; "0,a"; "1,b"; "2,c"; "3,d"; "4,e"])
         (like := styled (FillSolid (RGBColor 255)) "Header")
         (band0 := styled FillBackground "a") (band1 := styled (FillSolid (RGBColor 7)) "c")
    as (prs' & slide' & table' & Hsave & Hslides & Htable & _ & Hbands);
    try on_template.
  destruct (Hbands 0%nat "0,a") as (b1 & row1 & [= <-] & Hrow1 & Hfmt1);
    [simpl; lia | reflexivity |].
  destruct (Hbands 1%nat "1,b") as (b2 & row2 & [= <-] & Hrow2 & Hfmt2);
    [simpl; lia | reflexivity |].
  destruct (Hbands 4%nat "4,e") as (b5 & row5 & [= <-] & Hrow5 & Hfmt5);
    [simpl; lia | reflexivity |].
  exists prs', slide', table', row1, row2, row5. repeat split; assumption.
Defined.



(** * Further properties of the adapter *)

(** ** The options after [__init__] *)

(** X1.  Whatever options the adapter is built with, [_load] finds its
    [slide_name] and [_save] its [title]: the one the user gave, else the
    default ([0], [None]).  What is left for [read_csv] and [to_csv] holds
    neither of the two keys, and every other option of the user as given. *)
Theorem init_resolves_options (filepath : string)
    (load_args save_args : option (gmap string PyVal)) :
  let self := __init__ filepath load_args save_args in
  ∃ slide_name load_kwargs title save_kwargs,
    pop "slide_name" (_load_args self) = Ok (slide_name, load_kwargs)
    ∧ pop "title" (_save_args self) = Ok (title, save_kwargs)
    ∧ slide_name = default (PyInt 0) (load_args ≫= (.!! "slide_name"))
    ∧ title = default PyNone (save_args ≫= (.!! "title"))
    ∧ load_kwargs !! "slide_name" = None
    ∧ save_kwargs !! "title" = None
    ∧ (∀ key, key ≠ "slide_name" → key ≠ "index_col" →
         load_kwargs !! key = load_args ≫= (.!! key))
    ∧ (∀ key, key ≠ "title" → save_kwargs !! key = save_args ≫= (.!! key)).
Proof.
  intros self.
  assert (∀ key, _save_args self !! key =
            match save_args ≫= (.!! key) with
            | Some v => Some v
            | None => default_save_args !! key
            end) as Hsave.
  { intros key. destruct save_args as [args|]; simpl; [|done].
    rewrite lookup_union. by destruct (args !! key), (default_save_args !! key). }
  pose proof (init_load_arg filepath load_args save_args) as Hload. fold self in Hload.
  unfold pop. rewrite (Hload "slide_name"), (Hsave "title").
  exists (default (PyInt 0) (load_args ≫= (.!! "slide_name"))),
    (delete "slide_name" (_load_args self)),
    (default PyNone (save_args ≫= (.!! "title"))),
    (delete "title" (_save_args self)).
  split; [by destruct (load_args ≫= (.!! "slide_name"))|].
  split; [by destruct (save_args ≫= (.!! "title"))|].
  repeat (split; [done || apply lookup_delete_eq|]).
  split.
  - intros key Hname Hcol. rewrite lookup_delete_ne, Hload by done.
    destruct (load_args ≫= (.!! key)); [done|].
    unfold default_load_args. rewrite lookup_insert_ne by done.
    by rewrite lookup_singleton_ne.
  - intros key Htitle. rewrite lookup_delete_ne, Hsave by done.
    destruct (save_args ≫= (.!! key)); [done|].
    unfold default_save_args. by rewrite lookup_singleton_ne.
Qed.

(** ** What [_format_cells] does to a cell *)

Lemma format_cell_inv (like cell cell' : Cell) (value : string) :
  format_cell like cell value = Ok cell' →
  ∃ p0 ps lp lps lr lrs index size sz,
    paragraphs cell = p0 :: ps
    ∧ fill_ok like = true
    ∧ paragraphs like = lp :: lps ∧ runs lp = lr :: lrs
    ∧ font_color (run_font lr) = ThemeColor index
    ∧ size_pt (run_font lr) = Ok size ∧ set_size size = Ok sz
    ∧ cell' =
        {| fill := match fill like with
                   | FillBackground => FillBackground
                   | FillSolid color => FillSolid color
                   | _ => fill cell
                   end;
           margin_bottom := margin_bottom like; margin_left := margin_left like;
           margin_right := margin_right like; margin_top := margin_top like;
           paragraphs :=
             set_rPr_font (font_name (run_font lr)) sz (font_bold (run_font lr))
               (font_italic (run_font lr))
               ({| runs := runs p0 ++
                     [ {| run_text := escape value;
                          run_font := {| font_name := None; font_size := None;
                                         font_bold := None; font_italic := None;
                                         font_color := ThemeColor index |} |} ] |}
                :: ps) |}.
Proof.
  unfold format_cell. intros (f & Hf & Hrest)%bind_Ok.
  assert (fill_ok like = true) as Hfill.
  { destruct (fill_ok like) eqn:Hfill; [done|].
    by rewrite (fill_not_ok_copy like cell Hfill) in Hf. }
  apply copy_fill_Ok in Hf as ->.
  destruct (paragraphs cell) as [|p0 ps] eqn:Hp0; [done|].
  apply bind_Ok in Hrest as (lp & Hlp%getitem_Ok & Hrest).
  apply bind_Ok in Hrest as (lr & Hlr%getitem_Ok & Hrest).
  apply bind_Ok in Hrest as (index & Hindex & Hrest).
  apply bind_Ok in Hrest as (size & Hsize & Hrest).
  apply bind_Ok in Hrest as (ps' & Hps' & [= <-]).
  apply set_font_Ok in Hps' as (sz & Hsz & ->); [|done].
  destruct (paragraphs like) as [|lp' lps]; [done|]. injection Hlp as ->.
  destruct (runs lp) as [|lr' lrs] eqn:Hruns; [done|]. injection Hlr as ->.
  exists p0, ps, lp, lps, lr, lrs, index, size, sz.
  repeat (split; [done|]). split; [|done].
  unfold copy_theme_color in Hindex.
  destruct (font_color (run_font lr)); congruence.
Qed.

Lemma format_cells_lookup (row row' : Row) (line : string) (like : Cell)
    (i : nat) (cell : Cell) (value : string) :
  _format_cells row line like = Ok row' →
  cells row !! i = Some cell → split comma line !! i = Some value →
  ∃ cell', cells row' !! i = Some cell' ∧ format_cell like cell value = Ok cell'.
Proof.
  unfold _format_cells. intros (cs' & Hcs' & [= <-])%bind_Ok Hcell Hvalue. simpl.
  rewrite format_zip_pairs in Hcs'.
  apply bind_Ok in Hcs' as (done & Hdone & [= <-]).
  assert (zip (cells row) (split comma line) !! i = Some (cell, value)) as Hp.
  { rewrite lookup_zip_with, Hcell. simpl. by rewrite Hvalue. }
  destruct (mapM_lookup _ _ _ _ _ Hdone Hp) as (cell' & Hi & Hf).
  exists cell'. split; [|done]. by apply lookup_app_l_Some.
Qed.

Lemma set_rPr_font_fonts name sz bold italic (ps : list Paragraph) :
  Forall (λ p, Forall (λ r,
      font_name (run_font r) = name
      ∧ font_size (run_font r) = Some sz
      ∧ font_bold (run_font r) = bold
      ∧ font_italic (run_font r) = italic) (runs p))
    (set_rPr_font name sz bold italic ps).
Proof.
  unfold set_rPr_font. rewrite map_fmap. apply Forall_fmap, Forall_true. intros p.
  simpl. rewrite map_fmap. apply Forall_fmap, Forall_true. by intros r.
Qed.

(** X2.  A cell [_format_cells] has paired with a value carries the four
    margins of the exemplar, its fill when that is a background or a solid
    fill (any other kind leaves the fill of the cell alone), and on every
    run the name, bold and italic of the font of the exemplar's first run,
    with the size of that font as it comes out when it is read in points
    and written back. *)
Theorem format_cells_copies_style (row row' : Row) (line : string) (like : Cell)
    (i : nat) (cell : Cell) (value : string) :
  _format_cells row line like = Ok row' →
  cells row !! i = Some cell → split comma line !! i = Some value →
  ∃ cell' lp lps lr lrs sz,
    cells row' !! i = Some cell'
    ∧ paragraphs like = lp :: lps ∧ runs lp = lr :: lrs
    ∧ copied_size (run_font lr) = Ok sz
    ∧ margin_bottom cell' = margin_bottom like
    ∧ margin_left cell' = margin_left like
    ∧ margin_right cell' = margin_right like
    ∧ margin_top cell' = margin_top like
    ∧ fill cell' = match fill like with
                   | FillBackground => FillBackground
                   | FillSolid color => FillSolid color
                   | _ => fill cell
                   end
    ∧ Forall (λ p, Forall (λ r,
          font_name (run_font r) = font_name (run_font lr)
          ∧ font_size (run_font r) = Some sz
          ∧ font_bold (run_font r) = font_bold (run_font lr)
          ∧ font_italic (run_font r) = font_italic (run_font lr)) (runs p))
        (paragraphs cell').
Proof.
  intros Hrow Hcell Hvalue.
  destruct (format_cells_lookup _ _ _ _ _ _ _ Hrow Hcell Hvalue) as (cell' & Hi & Hf).
  apply format_cell_inv in Hf
    as (p0 & ps & lp & lps & lr & lrs & index & size & sz & Hp0 & Hfill & Hlp & Hlr
        & Hcolor & Hsize & Hsz & ->).
  eexists _, lp, lps, lr, lrs, sz. repeat (split; [done|]).
  split; [unfold copied_size; by rewrite Hsize|]. repeat (split; [done|]).
  cbn [paragraphs]. apply set_rPr_font_fonts.
Qed.

(** X3.  [_format_cells] appends: the first paragraph of a formatted cell
    keeps the text it had and ends with the value, stored the way a run
    stores its text, in a new last run that has the theme colour of the
    exemplar's first run; the other paragraphs keep their text. *)
Theorem format_cells_appends_run (row row' : Row) (line : string) (like : Cell)
    (i : nat) (cell : Cell) (value : string) :
  _format_cells row line like = Ok row' →
  cells row !! i = Some cell → split comma line !! i = Some value →
  ∃ cell' p0 ps p0' ps' lp lps lr lrs r index,
    cells row' !! i = Some cell'
    ∧ paragraphs cell = p0 :: ps ∧ paragraphs cell' = p0' :: ps'
    ∧ paragraphs like = lp :: lps ∧ runs lp = lr :: lrs
    ∧ map run_text (runs p0') = map run_text (runs p0) ++ [escape value]
    ∧ last (runs p0') = Some r
    ∧ run_text r = escape value
    ∧ font_color (run_font lr) = ThemeColor index
    ∧ font_color (run_font r) = ThemeColor index
    ∧ map paragraph_text ps' = map paragraph_text ps.
Proof.
  intros Hrow Hcell Hvalue.
  destruct (format_cells_lookup _ _ _ _ _ _ _ Hrow Hcell Hvalue) as (cell' & Hi & Hf).
  apply format_cell_inv in Hf
    as (p0 & ps & lp & lps & lr & lrs & index & size & sz & Hp0 & Hfill & Hlp & Hlr
        & Hcolor & Hsize & Hsz & ->).
  eexists _, p0, ps, _, _, lp, lps, lr, lrs, _, index.
  split; [done|]. split; [done|]. split; [simpl; reflexivity|].
  split; [done|]. split; [done|]. simpl. split; [|split; [|split; [|split; [|split]]]].
  - rewrite map_map. simpl. by rewrite map_app.
  - rewrite map_app. simpl. apply last_snoc.
  - done.
  - done.
  - done.
  - apply set_rPr_font_text.
Qed.

Lemma format_zip_new_cells (like : Cell) (n : nat) (vs : list string)
    (cs' : list Cell) :
  format_zip like (replicate n new_cell) vs = Ok cs' →
  map cell_text cs' = map escape (take n vs) ++ replicate (n - length vs) "".
Proof.
  revert vs cs'. induction n as [|n IH]; intros vs cs'; simpl.
  - by intros [= <-].
  - destruct vs as [|v vs]; simpl.
    + intros [= <-]. simpl. f_equal. rewrite map_fmap, fmap_replicate. done.
    + intros (c' & Hc & (rest & Hrest & [= <-])%bind_Ok)%bind_Ok.
      simpl. f_equal; [by eapply format_cell_new_text | eauto].
Qed.

(** X4.  What [_load] reads from a row of [n] fresh cells that
    [_format_cells] has filled from a line is the first [n] fields of the
    line, each the way a run stores it (a control character other than tab,
    line feed and carriage return as [_xHHHH_]), followed by an empty text
    for every cell the line has no field for. *)
Theorem fresh_row_reads_back (n : nat) (h : Z) (line : string) (like : Cell)
    (row' : Row) :
  _format_cells (new_row n h) line like = Ok row' →
  map cell_text (cells row')
  = map escape (take n (split comma line))
    ++ replicate (n - length (split comma line)) "".
Proof.
  unfold _format_cells. simpl. intros (cs' & Hcs' & [= <-])%bind_Ok. simpl.
  by apply (format_zip_new_cells like).
Qed.

(** X5.  The first pair decides whether [_format_cells] fails on its
    exemplar.  With a first cell that owns a paragraph: an exemplar whose
    fill is solid without an RGB colour raises [AttributeError]; otherwise
    one without paragraph, or without run in its first paragraph, raises
    [IndexError]; otherwise one whose first run has no colour, or a theme
    colour and no size, raises [AttributeError].  A row without cells is
    returned as it is, whatever the exemplar. *)
Theorem format_cells_exemplar_errors (row : Row) (line : string) (like : Cell) :
  (cells row = [] → _format_cells row line like = Ok row)
  ∧ (∀ cell rest, cells row = cell :: rest → has_paragraph cell = true →
       if fill_ok like then
         match paragraphs like with
         | [] => _format_cells row line like = Raise IndexError
         | lp :: _ =>
             match runs lp with
             | [] => _format_cells row line like = Raise IndexError
             | lr :: _ =>
                 match font_color (run_font lr), font_size (run_font lr) with
                 | NoColor, _ | ThemeColor _, None =>
                     _format_cells row line like = Raise AttributeError
                 | _, _ => True
                 end
             end
         end
       else _format_cells row line like = Raise AttributeError).
Proof.
  split.
  - intros Hcells. unfold _format_cells. rewrite Hcells. simpl.
    destruct row as [cs h]. simpl in Hcells. by subst.
  - intros cell rest Hcells Hcell. unfold _format_cells. rewrite Hcells.
    pose proof (split_not_nil comma line) as Hne.
    destruct (split comma line) as [|v vs]; [done|]. simpl.
    unfold format_cell, has_paragraph in *.
    destruct (fill_ok like) eqn:Hfill.
    2:{ by rewrite (fill_not_ok_copy like cell Hfill). }
    destruct (fill_ok_copy like cell Hfill) as [f ->]. simpl.
    destruct (paragraphs cell) as [|p0 ps]; [done|].
    destruct (paragraphs like) as [|lp lps]; [done|]. simpl.
    destruct (runs lp) as [|lr lrs]; [done|]. simpl.
    destruct (font_color (run_font lr)); simpl; try done.
    unfold size_pt. by destruct (font_size (run_font lr)).
Qed.

(** ** The buffer of [_load] *)

Lemma split_no_sep (c : ascii) (s : string) :
  contains c s = false → split c s = [s].
Proof.
  induction s as [|a s IH]; simpl; [done|].
  intros [Ha Hs]%orb_false_iff. rewrite Ha, (IH Hs). done.
Qed.

Lemma split_app_sep (c : ascii) (s rest : string) :
  contains c s = false →
  split c (s +:+ String c rest) = s :: split c rest.
Proof.
  induction s as [|a s IH]; simpl.
  - intros _. by rewrite Ascii.eqb_refl.
  - intros [Ha Hs]%orb_false_iff. rewrite Ha, (IH Hs). done.
Qed.

Lemma split_join (c : ascii) (l : list string) :
  l ≠ [] → Forall (λ s, contains c s = false) l →
  split c (join (String c EmptyString) l) = l.
Proof.
  intros Hne Hl. induction Hl as [|s l Hs Hl IH]; [done|].
  destruct l as [|s' l].
  - simpl. by apply split_no_sep.
  - change (join (String c EmptyString) (s :: s' :: l))
      with (s +:+ String c (join (String c EmptyString) (s' :: l))).
    rewrite (split_app_sep c s _ Hs). f_equal. by apply IH.
Qed.

Lemma has_linebreak_app (s1 s2 : string) :
  has_linebreak (s1 +:+ s2) = (has_linebreak s1 || has_linebreak s2)%bool.
Proof.
  induction s1 as [|a s1 IH]; simpl; [done|]. by rewrite IH, orb_assoc.
Qed.

Lemma has_linebreak_join (l : list string) :
  Forall (λ s, has_linebreak s = false) l → has_linebreak (join "," l) = false.
Proof.
  induction 1 as [|s l Hs Hl IH]; [done|].
  destruct l as [|s' l]; [done|].
  change (join "," (s :: s' :: l)) with (s +:+ String comma (join "," (s' :: l))).
  rewrite has_linebreak_app, Hs. simpl. exact IH.
Qed.

(** X6.  The text [_load] builds from a table decodes to the grid of the
    table: when every row has a cell and no cell text holds a comma or a
    line boundary, the lines of the buffer, split at the commas, are the
    cell texts of the rows, row by row. *)
Theorem table_buffer_decodes (t : Table) :
  Forall (λ row, cells row ≠ []
                 ∧ Forall (λ c, contains comma (cell_text c) = false
                                ∧ has_linebreak (cell_text c) = false) (cells row))
    (rows t) →
  map (split comma) (splitlines (table_buffer t))
  = map (λ row, map cell_text (cells row)) (rows t).
Proof.
  intros Hrows. unfold table_buffer. rewrite splitlines_unlines.
  - rewrite map_map. apply map_ext_Forall.
    eapply Forall_impl; [exact Hrows|]. intros row [Hne Hcells]. simpl.
    apply split_join.
    + by destruct (cells row).
    + rewrite map_fmap. apply Forall_fmap.
      eapply Forall_impl; [exact Hcells|]. by intros c [Hc _].
  - rewrite map_fmap. apply Forall_fmap.
    eapply Forall_impl; [exact Hrows|]. intros row [_ Hcells]. simpl.
    apply has_linebreak_join. rewrite map_fmap. apply Forall_fmap.
    eapply Forall_impl; [exact Hcells|]. by intros c [_ Hc].
Qed.

(** ** The new table on the slide *)

(** X7.  Appending the new frame, moving it behind the old one and removing
    the old one comes to putting the new frame at the position of the old
    one: the shape tree keeps its length and every other shape its place. *)
Theorem replace_table_in_place (l : list Shape) (i : nat) (old : Shape)
    (new : GraphicFrame) :
  l !! i = Some old → replace_table l i new = <[i := Frame new]> l.
Proof.
  intros Hold. pose proof (lookup_lt_Some _ _ _ Hold) as Hi.
  pose proof (take_drop_middle l i old Hold) as Hl.
  assert (length (take i l) = i) as Hlen by (rewrite length_take; lia).
  revert Hl Hlen. generalize (take i l) (drop (S i) l). intros pre post <- <-.
  rewrite replace_table_middle.
  by rewrite (insert_app_r_alt pre), Nat.sub_diag.
Qed.

(** ** What [_load] and [_save] do to the world *)

Section WorldEffects.

Context `{Pandas}.
Variable template_path : string.

Lemma save_unfold (self : PowerPointLocalDataSet) (data : DataFrame) (w : World) :
  _save template_path self data w =
    if negb (truthy (default (PyBool true) (_save_args self !! "index")))
    then (Raise AssertionError, w)
    else match files w !! template_path with
         | None => (Raise (PackageNotFoundError template_path),
                    opened template_path w)
         | Some prs =>
             match (slide_id_list ← delitem (enumerate (_sldIdLst prs)) 40;
                    pruned ← drop_slides (reverse slide_id_list) prs;
                    build self data pruned) with
             | Ok prs' =>
                 (Ok (), saved prs' (_filepath self) (opened template_path w))
             | Raise e => (Raise e, opened template_path w)
             end
         end.
Proof.
  unfold _save. destruct (negb _); [done|].
  unfold mbind at 1, M_bind at 1.
  destruct (files w !! template_path) as [prs|] eqn:Hfile.
  - rewrite (get_template_steps template_path w prs Hfile).
    destruct (delitem _ 40) as [l|]; simpl; [|done].
    destruct (drop_slides (reverse l) prs) as [pruned|]; simpl; [|done].
    unfold mbind, M_bind, lift. by destruct (build self data pruned).
  - unfold _get_template, mbind, M_bind, Presentation_open. by rewrite Hfile.
Qed.

Lemma save_effect (self : PowerPointLocalDataSet) (data : DataFrame) (w : World) :
  match _save template_path self data w with
  | (Ok _, w') =>
      ∃ prs', files w' = <[_filepath self := prs']> (files w)
              ∧ events w' = events w ++ [Opened template_path; Saved (_filepath self)]
  | (Raise e, w') =>
      files w' = files w
      ∧ (events w' = events w ∨ events w' = events w ++ [Opened template_path])
  end.
Proof.
  rewrite save_unfold. destruct (negb _); [by split; [|left]|].
  destruct (files w !! template_path) as [prs|]; [|by split; [|right]].
  destruct (_ ≫= _) as [prs'|e].
  - exists prs'. simpl. split; [done|]. by rewrite <- (assoc_L (++)).
  - by split; [|right].
Qed.


(** X9.  The last writer wins: as long as an adapter does not write over the
    template, what a later [_save] to the same file returns does not depend
    on the earlier one, and when the later one returns, neither do the
    files. *)
Theorem save_overwrites (self1 self2 : PowerPointLocalDataSet)
    (data1 data2 : DataFrame) (w : World) :
  _filepath self1 ≠ template_path →
  _filepath self1 = _filepath self2 →
  let w1 := (_save template_path self1 data1 w).2 in
  (_save template_path self2 data2 w1).1 = (_save template_path self2 data2 w).1
  ∧ ((_save template_path self2 data2 w).1 = Ok () →
     files (_save template_path self2 data2 w1).2
     = files (_save template_path self2 data2 w).2).
Proof.
  intros Hpath Hsame w1.
  assert (files w1 !! template_path = files w !! template_path
          ∧ ∀ prs, <[_filepath self2 := prs]> (files w1)
                   = <[_filepath self2 := prs]> (files w)) as [Htemplate Hfiles].
  { pose proof (save_effect self1 data1 w) as Hfirst. unfold w1.
    destruct (_save template_path self1 data1 w) as [[[]|e] w']; simpl.
    - destruct Hfirst as (prs1 & -> & _). split.
      + by rewrite lookup_insert_ne.
      + intros prs. rewrite <- Hsame. apply insert_insert_eq.
    - destruct Hfirst as [-> _]. done. }
  rewrite !save_unfold. destruct (negb _); [by split|].
  rewrite Htemplate. destruct (files w !! template_path) as [prs|]; [|by split].
  destruct (_ ≫= _) as [prs'|e]; simpl; [|by split].
  split; [done|]. intros _. apply Hfiles.
Qed.

(** X10.  A template that is missing, or has 40 slides or fewer, stops
    [_get_template], the first with [PackageNotFoundError], the second with
    the [IndexError] of [del slide_id_list[40]]; [_save] then raises the
    same, unless its assertion on [index] has failed before. *)
Theorem template_unusable (self : PowerPointLocalDataSet) (data : DataFrame)
    (w : World) :
  truthy (default (PyBool true) (_save_args self !! "index")) = true →
  match files w !! template_path with
  | None =>
      _get_template template_path w
        = (Raise (PackageNotFoundError template_path), opened template_path w)
      ∧ _save template_path self data w
        = (Raise (PackageNotFoundError template_path), opened template_path w)
  | Some prs =>
      (length (_sldIdLst prs) ≤ 40)%nat →
      _get_template template_path w = (Raise IndexError, opened template_path w)
      ∧ _save template_path self data w = (Raise IndexError, opened template_path w)
  end.
Proof.
  intros Hindex. rewrite save_unfold, Hindex. simpl.
  destruct (files w !! template_path) as [prs|] eqn:Hfile.
  - intros Hshort. rewrite (get_template_steps template_path w prs Hfile).
    unfold delitem. rewrite decide_False; [done|].
    unfold enumerate. rewrite length_zip_with, length_seq. lia.
  - split; [|done].
    unfold _get_template, mbind, M_bind, Presentation_open. by rewrite Hfile.
Qed.

(** X11.  [_load] only reads: whatever it returns or raises, the files are
    what they were, and the one document it has opened is the file of the
    adapter. *)
Theorem load_reads_only (self : PowerPointLocalDataSet) (w : World) :
  files (_load self w).2 = files w
  ∧ events (_load self w).2 = events w ++ [Opened (_filepath self)].
Proof.
  destruct (files w !! _filepath self) as [prs|] eqn:Hfile.
  - by rewrite (load_steps self w prs Hfile).
  - unfold _load, mbind, M_bind, Presentation_open. by rewrite Hfile.
Qed.

(** X12.  [_load] fails before it parses anything when the file is missing
    ([PackageNotFoundError]) and when [slide_name] is an integer outside the
    slides of the document ([IndexError]); a negative [slide_name] within
    them counts from the last slide. *)
Theorem load_slide_bounds (self : PowerPointLocalDataSet) (w : World) (z : Z) :
  _load_args self !! "slide_name" = Some (PyInt z) →
  match files w !! _filepath self with
  | None => (_load self w).1 = Raise (PackageNotFoundError (_filepath self))
  | Some prs =>
      let n := Z.of_nat (length (_sldIdLst prs)) in
      (z < - n ∨ n ≤ z → (_load self w).1 = Raise IndexError)
      ∧ (- n ≤ z < 0 →
         slides_getitem prs (PyInt z) = slides_getitem prs (PyInt (n + z)))
  end.
Proof.
  intros Hname. destruct (files w !! _filepath self) as [prs|] eqn:Hfile.
  - intros n. split.
    + intros Hout. rewrite (load_steps self w prs Hfile). simpl.
      unfold pop. rewrite Hname. simpl. unfold getitem_int.
      destruct (Z.leb_spec 0 z) as [Hz|Hz].
      * rewrite getitem_Raise; [done | lia].
      * destruct (Z.leb_spec 0 (Z.of_nat (length (_sldIdLst prs)) + z)); [lia|done].
    + intros Hin. simpl. unfold getitem_int.
      destruct (Z.leb_spec 0 z) as [Hz|Hz]; [lia|].
      destruct (Z.leb_spec 0 (Z.of_nat (length (_sldIdLst prs)) + z)) as [Hz'|Hz'];
        [|lia].
      fold n. by destruct (Z.leb_spec 0 (n + z)); [|lia].
  - unfold _load, mbind, M_bind, Presentation_open. by rewrite Hfile.
Qed.

End WorldEffects.

(** ** More on saving on a pruned template *)

Section SavedDocument.

Context `{Pandas}.
Variable template_path : string.
Variables (self : PowerPointLocalDataSet) (data : DataFrame) (w w1 : World).
Variables (prs : Presentation) (slide0 : Slide).
Variables (title : PyVal) (save_args : gmap string PyVal).

Hypothesis Hindex : truthy (default (PyBool true) (_save_args self !! "index")) = true.
Hypothesis Htemplate : _get_template template_path w = (Ok prs, w1).
Hypothesis Hslides : slides prs = Ok [slide0].
Hypothesis Hpop : pop "title" (_save_args self) = Ok (title, save_args).

(** X13.  A title that is not [None] needs a title placeholder on the
    slide: without one, [slide.shapes.title] is [None] and [_save] raises
    [AttributeError], and nothing is written. *)
Theorem save_title_needs_placeholder :
  title ≠ PyNone →
  title_index (shapes slide0) = None →
  _save template_path self data w = (Raise AttributeError, w1)
  ∧ files w1 = files w.
Proof.
  intros Htitle Hnone.
  pose proof Hslides as (sid & Hsid & Hrel)%slides_single.
  split.
  - rewrite (save_steps template_path self data w w1 prs Hindex Htemplate).
    unfold build. rewrite Hslides, Hsid. simpl. rewrite Hpop. simpl.
    unfold set_title. rewrite Hnone. by destruct title.
  - by rewrite (get_template_files template_path w w1 _ Htemplate).
Qed.

Variables (slide : Slide) (i : nat) (old_table : GraphicFrame) (t : Table).
Variables (header_row first_data_row second_data_row : Row) (more_rows : list Row).

Hypothesis Htitle :
  match title with PyNone => Ok slide0 | _ => set_title slide0 title end = Ok slide.
Hypothesis Hframe : _get_table_graphic_frame slide = Ok (i, old_table).
Hypothesis Htable : table old_table = Some t.
Hypothesis Hrows :
  rows t = header_row :: first_data_row :: second_data_row :: more_rows.

(** X14.  What [to_csv] raises, [_save] raises, and nothing is written. *)
Theorem save_to_csv_error (e : Exception) :
  to_csv data save_args = Raise e →
  _save template_path self data w = (Raise e, w1) ∧ files w1 = files w.
Proof.
  intros Hcsv. split.
  - destruct (save_on_template template_path self data w w1 prs slide0 slide title
                save_args i old_table t Hindex Htemplate Hslides Hpop Htitle Hframe
                Htable) as (sid & _ & _ & ->).
    unfold build_table. destruct (shape data) as [nrows ncols]. rewrite Hrows. simpl.
    by rewrite Hcsv.
  - by rewrite (get_template_files template_path w w1 _ Htemplate).
Qed.

Variable csv : string.
Variables (like band0 band1 : Cell).

Hypothesis Hcsv : to_csv data save_args = Ok csv.
Hypothesis Hlike : cells header_row !! 1%nat = Some like.
Hypothesis Hband0 : cells first_data_row !! 0%nat = Some band0.
Hypothesis Hband1 : cells second_data_row !! 0%nat = Some band1.
Hypothesis Hlike_ok : exemplar_ok like = true.
Hypothesis Hband0_ok : exemplar_ok band0 = true.
Hypothesis Hband1_ok : exemplar_ok band1 = true.
Hypothesis Hlines : splitlines csv ≠ [].

(** The shapes of the slide once the title is set. *)
Lemma titled_shapes :
  shapes slide =
    match title with
    | PyStr s => match title_index (shapes slide0) with
                 | Some j => <[j := Placeholder true s]> (shapes slide0)
                 | None => shapes slide0
                 end
    | _ => shapes slide0
    end.
Proof.
  revert Htitle. unfold set_title.
  destruct title as [| | |s]; destruct (title_index (shapes slide0));
    try done; by intros [= <-].
Qed.

Lemma saved_document :
  ∃ sid rows',
    _sldIdLst prs = [sid]
    ∧ fill_table (replicate (S (shape data).1) (blank_row data header_row))
        (splitlines csv) header_row first_data_row second_data_row = Ok rows'
    ∧ _save template_path self data w =
        (Ok (),
         saved {| _sldIdLst := [sid];
                  rels := <[rId sid :=
                    {| shapes := <[i := Frame
                         {| left := left old_table; top := top old_table;
                            width := width old_table;
                            frame_height :=
                              Z.of_nat ((shape data).1 + 1) * height header_row;
                            table := Some {| rows := rows' |} |}]>
                         (shapes slide) |}]> (rels prs) |}
               (_filepath self) w1).
Proof.
  destruct (save_on_template template_path self data w w1 prs slide0 slide title
              save_args i old_table t Hindex Htemplate Hslides Hpop Htitle Hframe
              Htable) as (sid & Hsid & _ & ->).
  rewrite (build_table_fill data save_args old_table t header_row first_data_row
             second_data_row more_rows csv Hrows Hcsv).
  cbn zeta. fold (blank_row data header_row).
  destruct (splitlines csv) as [|line lines] eqn:Hsplit; [done|].
  destruct (fill_table_ok (shape data).1 (S (shape data).2)
              (height (blank_row data header_row))
              line lines header_row first_data_row second_data_row like band0 band1
              Hlike Hlike_ok Hband0 Hband0_ok Hband1 Hband1_ok) as [rows' Hfill].
  change (new_row _ (height (blank_row data header_row)))
    with (blank_row data header_row) in Hfill.
  rewrite Hfill. simpl.
  pose proof (graphic_frame_loop_spec (shapes slide) 0) as Hspec.
  unfold _get_table_graphic_frame in Hframe. rewrite Hframe in Hspec.
  destruct Hspec as (pre & post & Hshapes & -> & Hpre & _). simpl.
  exists sid, rows'. split; [done|]. split; [done|].
  rewrite Hshapes, replace_table_middle.
  by rewrite (insert_app_r_alt pre), Nat.sub_diag.
Qed.


(** X16.  Lines and rows are paired as far as both go: a row of the new
    table that no line of the serialized text is left for stays as
    [add_table] has made it, its cells empty. *)
Theorem save_rows_without_line :
  ∃ prs' slide' table',
    _save template_path self data w = (Ok (), saved prs' (_filepath self) w1)
    ∧ slides prs' = Ok [slide']
    ∧ _get_table slide' = Ok table'
    ∧ ∀ k, (length (splitlines csv) ≤ k)%nat → (k < (shape data).1 + 1)%nat →
        rows table' !! k = Some (blank_row data header_row)
        ∧ map cell_text (cells (blank_row data header_row))
          = replicate ((shape data).2 + 1) "".
Proof.
  destruct (save_ok template_path self data w w1 prs slide0 slide title save_args
              i old_table t Hindex Htemplate Hslides Hpop Htitle Hframe Htable
              header_row first_data_row second_data_row more_rows csv Hrows Hcsv
              like band0 band1 Hlike Hband0 Hband1 Hlike_ok Hband0_ok Hband1_ok
              Hlines) as (prs' & slide' & rows' & Hsave & Hfill & Hsid & Htbl).
  exists prs', slide', {| rows := rows' |}. split; [done|].
  split; [by apply slides_single|]. split; [done|]. simpl.
  destruct (fill_table_spec _ _ _ _ _ _ Hfill)
    as (ex & b0 & b1 & _ & _ & _ & _ & _ & Hrest).
  intros k Hk Hlt. rewrite (Hrest k Hk). split.
  - apply lookup_replicate. split; [done | lia].
  - unfold blank_row, new_row. cbn [cells].
    by rewrite map_fmap, fmap_replicate, Nat.add_1_r.
Qed.

(** X17.  The document [_save] writes has one slide: [_load] can be pointed
    at it with [slide_name] 0 or -1, which select the same slide, and any
    other integer is out of range. *)
Theorem saved_document_has_one_slide :
  ∃ prs',
    _save template_path self data w = (Ok (), saved prs' (_filepath self) w1)
    ∧ length (_sldIdLst prs') = 1%nat
    ∧ slides_getitem prs' (PyInt (-1)) = slides_getitem prs' (PyInt 0)
    ∧ ∀ z, z ≠ 0 → z ≠ -1 → slides_getitem prs' (PyInt z) = Raise IndexError.
Proof.
  destruct saved_document as (sid & rows' & Hsid & Hfill & Hsave).
  match type of Hsave with _ = (_, saved ?p _ _) => exists p end.
  split; [exact Hsave|]. split; [reflexivity|]. split; [reflexivity|].
  intros z Hz0 Hz1. unfold slides_getitem, getitem_int. cbn [_sldIdLst length].
  destruct (Z.leb_spec 0 z) as [Hz|Hz].
  - rewrite getitem_Raise; [done | simpl; lia].
  - destruct (Z.leb_spec 0 (Z.of_nat 1 + z)); [lia | done].
Qed.

End SavedDocument.

(** ** The further properties at work *)

Lemma init_resolves_options_witness :
  ∃ slide_name load_kwargs title save_kwargs,
    pop "slide_name"
      (_load_args (__init__ "out.pptx" (Some {[ "sep" := PyStr ";" ]})
                     (Some {[ "title" := PyStr "Hello" ]})))
      = Ok (slide_name, load_kwargs)
    ∧ pop "title"
        (_save_args (__init__ "out.pptx" (Some {[ "sep" := PyStr ";" ]})
                       (Some {[ "title" := PyStr "Hello" ]})))
      = Ok (title, save_kwargs)
    ∧ load_kwargs !! "sep" = Some (PyStr ";")
    ∧ save_kwargs !! "index" = None.
Proof.
  destruct (init_resolves_options "out.pptx" (Some {[ "sep" := PyStr ";" ]})
              (Some {[ "title" := PyStr "Hello" ]}))
    as (sn & lk & ti & sk & Hload & Hsave & _ & _ & _ & _ & Hlk & Hsk).
  exists sn, lk, ti, sk. split; [exact Hload|]. split; [exact Hsave|]. split.
  - rewrite (Hlk "sep") by discriminate. reflexivity.
  - rewrite (Hsk "index") by discriminate. reflexivity.
Defined.

(** A size of 10.12 points comes out as 10.11 points. *)
Lemma format_cells_copies_style_witness :
  ∃ row' cell',
    _format_cells (new_row 2 100) "a,b" odd_size = Ok row'
    ∧ cells row' !! 1%nat = Some cell'
    ∧ margin_left cell' = 20
    ∧ fill cell' = FillSolid (RGBColor 7)
    ∧ Forall (λ p, Forall (λ r, font_size (run_font r) = Some 1011) (runs p))
        (paragraphs cell').
Proof.
  destruct (format_cells_new_ok 2 100 "a,b" odd_size eq_refl) as [row' Hrow'].
  destruct (format_cells_copies_style (new_row 2 100) row' "a,b" odd_size 1
              new_cell "b" Hrow' eq_refl eq_refl)
    as (cell' & lp & lps & lr & lrs & sz & Hcell' & [= <- <-] & [= <- <-] & [= <-]
        & _ & Hleft & _ & _ & Hfill & Hfonts).
  exists row', cell'. repeat (split; [assumption|]).
  eapply Forall_impl; [exact Hfonts|]. intros p Hp.
  eapply Forall_impl; [exact Hp|]. intros r (_ & Hsize & _). exact Hsize.
Defined.

Lemma format_cells_appends_run_witness :
  ∃ row' cell' p0' ps',
    _format_cells header "x,y" (styled FillBackground "a") = Ok row'
    ∧ cells row' !! 1%nat = Some cell'
    ∧ paragraphs cell' = p0' :: ps'
    ∧ map run_text (runs p0') = ["Header"; "y"].
Proof.
  assert (∃ row', _format_cells header "x,y" (styled FillBackground "a") = Ok row')
    as [row' Hrow'] by (eexists; vm_compute; reflexivity).
  destruct (format_cells_appends_run header row' "x,y" (styled FillBackground "a")
              1 (styled (FillSolid (RGBColor 255)) "Header") "y" Hrow' eq_refl eq_refl)
    as (cell' & p0 & ps & p0' & ps' & lp & lps & lr & lrs & r & index & Hcell'
        & [= <- <-] & Hp' & _ & _ & Htexts & _).
  exists row', cell', p0', ps'. repeat split; assumption.
Defined.

(** The character with code 1 reads back as [_x0001_]. *)
Lemma fresh_row_reads_back_witness :
  ∃ row', _format_cells (new_row 3 100) ("a," +:+ String (ascii_of_nat 1) "b")
            (styled FillBackground "a") = Ok row'
          ∧ map cell_text (cells row') = ["a"; "_x0001_b"; ""].
Proof.
  destruct (format_cells_new_ok 3 100 ("a," +:+ String (ascii_of_nat 1) "b")
              (styled FillBackground "a") eq_refl)
    as [row' Hrow'].
  exists row'. split; [exact Hrow'|].
  exact (fresh_row_reads_back 3 100 ("a," +:+ String (ascii_of_nat 1) "b")
           (styled FillBackground "a") row' Hrow').
Defined.

Lemma format_cells_exemplar_errors_witness :
  _format_cells (new_row 1 100) "a" corner = Raise IndexError.
Proof.
  exact (proj2 (format_cells_exemplar_errors (new_row 1 100) "a" corner)
           new_cell [] eq_refl eq_refl).
Defined.

Lemma table_buffer_decodes_witness :
  map (split comma) (splitlines (table_buffer {| rows := exemplars |}))
  = [[""; "Header"]; ["a"; "b"]; ["c"; "d"]].
Proof.
  apply (table_buffer_decodes {| rows := exemplars |}).
  repeat (first [ apply Forall_cons; split | apply Forall_nil
                | split | discriminate | reflexivity ]).
Defined.

Lemma replace_table_in_place_witness :
  replace_table (shapes (content exemplars)) 1 (frame [header])
  = [Placeholder true "Table"; Frame (frame [header]); Placeholder false "note"].
Proof.
  apply (replace_table_in_place (shapes (content exemplars)) 1
           (Frame (frame exemplars)) (frame [header])).
  reflexivity.
Defined.

Lemma save_overwrites_witness :
  (_save (H := csv_text) path data_set no_rows
     (_save (H := csv_text) path data_set data template).2).1
  = (_save (H := csv_text) path data_set no_rows template).1.
Proof.
  apply (save_overwrites (H := csv_text) path data_set data_set data no_rows template).
  - discriminate.
  - reflexivity.
Defined.

Lemma template_unusable_witness :
  _save (H := csv_text) path data_set data (world 40 exemplars)
  = (Raise IndexError, opened path (world 40 exemplars)).
Proof.
  pose proof (template_unusable (H := csv_text) path data_set data
                (world 40 exemplars) eq_refl) as Hshort.
  unfold world in Hshort at 1. cbn [files] in Hshort.
  rewrite lookup_singleton_eq in Hshort.
  apply Hshort. vm_compute. apply le_n.
Defined.

Lemma load_slide_bounds_witness :
  (_load (H := csv_text)
     (__init__ "deck.pptx" (Some {[ "slide_name" := PyInt 3 ]}) None) deck).1
  = Raise IndexError.
Proof.
  pose proof (load_slide_bounds (H := csv_text)
                (__init__ "deck.pptx" (Some {[ "slide_name" := PyInt 3 ]}) None)
                deck 3 eq_refl) as Hbounds.
  unfold deck in Hbounds at 1. cbn [files _filepath __init__] in Hbounds.
  rewrite lookup_singleton_eq in Hbounds.
  apply Hbounds. right. vm_compute. discriminate.
Defined.

Lemma untitled_template_prunes :
  _get_template path untitled_template
  = (Ok pruned_untitled, opened path untitled_template).
Proof. vm_compute. reflexivity. Qed.

Lemma save_title_needs_placeholder_witness :
  _save (H := csv_text) path titled_data_set data untitled_template
  = (Raise AttributeError, opened path untitled_template).
Proof.
  apply (save_title_needs_placeholder (H := csv_text) path titled_data_set data
           untitled_template (opened path untitled_template) pruned_untitled
           untitled (PyStr "Hello") ∅).
  - reflexivity.
  - apply untitled_template_prunes.
  - vm_compute. reflexivity.
  - vm_compute. reflexivity.
  - discriminate.
  - reflexivity.
Defined.

Lemma save_to_csv_error_witness :
  _save (H := strict_text) path coloured_data_set data template
  = (Raise TypeError, opened path template).
Proof.
  apply (save_to_csv_error (H := strict_text) path coloured_data_set data template
           (opened path template) (pruned exemplars) (content exemplars)
           PyNone {[ "colour" := PyStr "red" ]}
           ltac:(reflexivity) (template_prunes exemplars)
           ltac:(vm_compute; reflexivity) ltac:(vm_compute; reflexivity)
           (content exemplars) 1%nat (frame exemplars) {| rows := exemplars |}
           header band0 band1 []
           ltac:(reflexivity) ltac:(vm_compute; reflexivity) ltac:(reflexivity)
           ltac:(reflexivity) TypeError).
  vm_compute. reflexivity.
Defined.


Lemma save_rows_without_line_witness :
  ∃ prs' slide' table',
    _save (H := csv_text) path data_set ragged template
      = (Ok (), saved prs' "out.pptx" (opened path template))
    ∧ slides prs' = Ok [slide']
    ∧ _get_table slide' = Ok table'
    ∧ rows table' !! 3%nat = Some (blank_row (H := csv_text) ragged header)
    ∧ map cell_text (cells (blank_row (H := csv_text) ragged header)) = [""; ""].
Proof.
  destruct (save_rows_without_line (H := csv_text) path data_set ragged
              template (opened path template) (pruned exemplars) (content exemplars)
              PyNone ∅)
    with (slide := content exemplars)
         (i := 1%nat) (old_table := frame exemplars) (t := {| rows := exemplars |})
         (header_row := header) (first_data_row := band0) (second_data_row := band1)
         (more_rows := @nil Row) (csv := unlines [",x"; "0,a"])
         (like := styled (FillSolid (RGBColor 255)) "Header")
         (band0 := styled FillBackground "a") (band1 := styled (FillSolid (RGBColor 7)) "c")
    as (prs' & slide' & table' & Hsave & Hslides & Htable & Hblank);
    try on_template.
  destruct (Hblank 3%nat) as [Hrow Htexts]; [vm_compute; lia | simpl; lia |].
  exists prs', slide', table'. repeat split; assumption.
Defined.

Lemma saved_document_has_one_slide_witness :
  ∃ prs',
    _save (H := csv_text) path data_set data template
      = (Ok (), saved prs' "out.pptx" (opened path template))
    ∧ slides_getitem prs' (PyInt 1) = Raise IndexError.
Proof.
  destruct (saved_document_has_one_slide (H := csv_text) path data_set data
              template (opened path template) (pruned exemplars) (content exemplars)
              PyNone ∅)
    with (slide := content exemplars)
         (i := 1%nat) (old_table := frame exemplars) (t := {| rows := exemplars |})
         (header_row := header) (first_data_row := band0) (second_data_row := band1)
         (more_rows := @nil Row) (csv := unlines [",x,y"; "0,a,b"; "1,c,d"; "2,e,f"])
         (like := styled (FillSolid (RGBColor 255)) "Header")
         (band0 := styled FillBackground "a") (band1 := styled (FillSolid (RGBColor 7)) "c")
    as (prs' & Hsave & _ & _ & Hout);
    try on_template.
  exists prs'. split; [exact Hsave|]. apply Hout; discriminate.
Defined.
